(** * Model lifecycle of the bike-station forecasting service

    A shallow embedding of the training script ([train_model.py]), the
    promotion script ([predict_model.py]) and the serving route
    ([routers/prediction.py]), together with the properties their
    specification states about them.

    Python integers are [Z], floats are IEEE binary64 values ([float]),
    strings are [string].  A Python function that may raise is a function
    into [result]; code that mutates the model registry or the tracking run
    is written in a state-and-exception monad [M]. *)

From Stdlib Require Import ZArith Ascii String List Lia Floats DecimalString DecimalZ DecimalPos.
From stdpp Require Import gmap strings list fin_maps.

(** ** Python values *)

(** [str(n)] for an [int]. *)
Definition str (z : Z) : string := NilZero.string_of_int (Z.to_int z).

(** The exceptions that the modelled code raises or lets through. *)
Inductive exn : Type :=
| IndexError
| MlflowException (msg : string)
| HTTPException (status_code : Z) (detail : string)
| OtherError (msg : string).

Inductive result (A : Type) : Type :=
| Ok (a : A)
| Raise (e : exn).
Arguments Ok {A} a.
Arguments Raise {A} e.

(** [xs[0]] *)
Definition first_item {A : Type} (xs : list A) : result A :=
  match xs with
  | x :: _ => Ok x
  | [] => Raise IndexError
  end.

(** ** State and exceptions

    A computation takes the state and returns the state it left behind
    together with a value or the exception it raised: what was written
    before a [raise] stays written. *)
Definition M (S A : Type) : Type := S -> S * result A.

Definition ret {S A : Type} (a : A) : M S A := fun s => (s, Ok a).

Definition raise {S A : Type} (e : exn) : M S A := fun s => (s, Raise e).

Definition bind {S A B : Type} (m : M S A) (k : A -> M S B) : M S B :=
  fun s =>
    match m s with
    | (s', Ok a) => k a s'
    | (s', Raise e) => (s', Raise e)
    end.

Definition lift {S A : Type} (r : result A) : M S A := fun s => (s, r).

Definition get {S : Type} : M S S := fun s => (s, Ok s).

Definition modify {S : Type} (f : S -> S) : M S unit := fun s => (f s, Ok tt).

(** [try: body except IndexError: handler] *)
Definition try_except_IndexError {S A : Type} (body handler : M S A) : M S A :=
  fun s =>
    match body s with
    | (s', Raise IndexError) => handler s'
    | out => out
    end.

(** [for x in xs: body(x)] *)
Fixpoint for_each {S A : Type} (xs : list A) (body : A -> M S unit) : M S unit :=
  match xs with
  | [] => ret tt
  | x :: xs' => bind (body x) (fun _ => for_each xs' body)
  end.

#[export] Instance M_ret {S : Type} : MRet (M S) := fun A a => ret a.
#[export] Instance M_bind {S : Type} : MBind (M S) := fun A B k m => bind m k.

(** ** The model registry

    The registry is the tracking server's store, reached through
    [MlflowClient].  A registered model is the list of its versions in the
    order they were created: version [k] is the [k]-th entry. *)
Module Registry.

Inductive Stage : Type := NoStage | Staging | Production | Archived.

#[export] Instance Stage_eq_dec : EqDecision Stage.
Proof. solve_decision. Defined.

(** What the store keeps for one version. *)
Record entry : Type := mkEntry {
  entry_run_id : nat;
  entry_source : string;
  entry_stage : Stage
}.

(** What the client hands back for one version. *)
Record ModelVersion : Type := mkModelVersion {
  version : nat;
  run_id : nat;
  source : string;
  current_stage : Stage
}.

Abbreviation t := (gmap string (list entry)).

Definition model_version_of (v : nat) (e : entry) : ModelVersion :=
  mkModelVersion v (entry_run_id e) (entry_source e) (entry_stage e).

(** The newest version of [es] in stage [st], when [es] starts at version [v]. *)
Fixpoint latest_from (v : nat) (st : Stage) (es : list entry) : option ModelVersion :=
  match es with
  | [] => None
  | e :: es' =>
      match latest_from (S v) st es' with
      | Some mv => Some mv
      | None => if decide (entry_stage e = st) then Some (model_version_of v e) else None
      end
  end.

Definition latest_in_stage (st : Stage) (es : list entry) : option ModelVersion :=
  latest_from 1 st es.

(** [client.get_latest_versions(name, stages=stages)]: for each requested
    stage the newest version in it, if there is one. *)
Definition get_latest_versions (name : string) (stages : list Stage) (r : t)
  : result (list ModelVersion) :=
  match r !! name with
  | None => Raise (MlflowException "RESOURCE_DOES_NOT_EXIST")
  | Some es => Ok (omap (fun st => latest_in_stage st es) stages)
  end.

(** [client.create_model_version(name, source, run_id)]: the next version
    number, in no stage yet. *)
Definition create_model_version (name : string) (src : string) (run : nat) (r : t)
  : result (ModelVersion * t) :=
  match r !! name with
  | None => Raise (MlflowException "RESOURCE_DOES_NOT_EXIST")
  | Some es =>
      let e := mkEntry run src NoStage in
      Ok (model_version_of (S (length es)) e, <[name := es ++ [e]]> r)
  end.

Definition set_stage (st : Stage) (e : entry) : entry :=
  mkEntry (entry_run_id e) (entry_source e) st.

(** [client.transition_model_version_stage(name, version, stage)]; the
    versions already in [stage] stay there (no archiving is asked for). *)
Definition transition_model_version_stage (name : string) (v : nat) (st : Stage) (r : t)
  : result t :=
  match r !! name with
  | None => Raise (MlflowException "RESOURCE_DOES_NOT_EXIST")
  | Some es =>
      match v with
      | O => Raise (MlflowException "RESOURCE_DOES_NOT_EXIST")
      | S i =>
          match es !! i with
          | None => Raise (MlflowException "RESOURCE_DOES_NOT_EXIST")
          | Some _ => Ok (<[name := alter (set_stage st) i es]> r)
          end
      end
  end.

(** Registering under a name creates the registered model when it is new
    and adds a version to it (what [log_model(registered_model_name=...)]
    does after storing the artifact). *)
Definition register_model (name : string) (src : string) (run : nat) (r : t) : t :=
  <[name := default [] (r !! name) ++ [mkEntry run src NoStage]]> r.

(** The stage of version [v] of [name]. *)
Definition stage_of (name : string) (v : nat) (r : t) : option Stage :=
  match v with
  | O => None
  | S i => es ← r !! name; e ← es !! i; Some (entry_stage e)
  end.

End Registry.

(** ** The repository's helpers and the tracking server

    [load_bike_station_dataset], [create_test_train_split],
    [prepare_model_data], [evaluate_model_performance] and [train_model] are
    imported by the scripts from [src.models]; the scripts only call them.
    They are taken as given, each one free to raise.  [prepare_model_data]
    fits the scaler object it is handed, so it also returns the scaler as it
    is after the call. *)
Class Repo : Type := {
  Dataset : Type;
  Frame : Type;
  Features : Type;
  Targets : Type;
  Model : Type;
  Scaler : Type;
  load_bike_station_dataset : string -> string -> result Dataset;
  create_test_train_split : string -> result (Frame * Frame);
  prepare_model_data :
    Dataset -> Scaler -> Frame -> Frame ->
    result (Scaler * (Features * Targets * Features * Targets));
  evaluate_model_performance :
    Targets -> Targets -> Dataset -> Scaler -> result (float * float * float);
  train_model : Features -> Targets -> Features -> Targets -> Z -> Z -> Z -> result Model;
  (** [model.predict(X)] and [model.name] *)
  predict : Model -> Features -> result Targets;
  name : Model -> string;
  (** [MinMaxScaler()] and [len(dataset)] *)
  MinMaxScaler : Scaler;
  len : Dataset -> Z
}.

Section Tracking.
Context {R : Repo}.

Import Registry.

(** What a logged artifact is. *)
Inductive Artifact : Type :=
| KerasModel (m : Model)
| SklearnModel (sc : Scaler).

(** The calls a script makes to the helpers and to the run's log, with
    their arguments.  Writes to standard output are left out. *)
Inductive call : Type :=
| CallLoadDataset (station split : string)
| CallSplit (station : string)
| CallPrepare (d : Dataset) (sc : Scaler) (train_data test_data : Frame)
| CallTrain (X_train : Features) (y_train : Targets) (X_test : Features) (y_test : Targets)
| CallPredict (m : Model) (X : Features)
| CallEvaluate (y pred : Targets) (d : Dataset) (sc : Scaler)
| LogParam (key : string) (value : Z)
| LogMetric (key : string) (value : float)
| WriteMetrics (path model_name : string) (mse mae evs : float).

(** The tracking server and what the process has done so far:
    [writes] lists the registry after each write to it, oldest first, and
    [calls] the helper calls, oldest first. *)
Record world : Type := mkWorld {
  registry : Registry.t;
  artifacts : gmap string Artifact;
  active_run : option nat;
  runs_started : nat;
  writes : list Registry.t;
  calls : list call
}.

Definition set_registry (r : Registry.t) (w : world) : world :=
  mkWorld r (artifacts w) (active_run w) (runs_started w) (writes w ++ [r]) (calls w).

Definition set_artifact (uri : string) (a : Artifact) (w : world) : world :=
  mkWorld (registry w) (<[uri := a]> (artifacts w)) (active_run w) (runs_started w)
    (writes w) (calls w).

Definition set_active_run (run : option nat) (started : nat) (w : world) : world :=
  mkWorld (registry w) (artifacts w) run started (writes w) (calls w).

Definition add_call (c : call) (w : world) : world :=
  mkWorld (registry w) (artifacts w) (active_run w) (runs_started w) (writes w)
    (calls w ++ [c]).

(** A helper call: it is recorded, then returns or raises. *)
Definition helper {A : Type} (c : call) (r : result A) : M world A :=
  modify (add_call c);; lift r.

(** [mlflow.start_run(run_name=...)]: refuses to nest. *)
Definition start_run (run_name : string) : M world nat :=
  w ← get;
  match active_run w with
  | Some _ => raise (OtherError "a run is already active")
  | None =>
      let run := S (runs_started w) in
      modify (set_active_run (Some run) run);; mret run
  end.

(** [mlflow.end_run()] *)
Definition end_run : M world unit :=
  w ← get; modify (set_active_run None (runs_started w)).

(** The run that logging goes to: the active one, or a new one. *)
Definition current_run : M world nat :=
  w ← get;
  match active_run w with
  | Some run => mret run
  | None => start_run ""
  end.

Definition log_param (key : string) (value : Z) : M world unit :=
  modify (add_call (LogParam key value)).

Definition log_metric (key : string) (value : float) : M world unit :=
  modify (add_call (LogMetric key value)).

(** What [log_model] returns. *)
Record ModelInfo : Type := mkModelInfo {
  model_uri : string;
  info_run_id : nat
}.

(** [log_model(artifact, artifact_path=..., registered_model_name=...)]:
    stores the artifact under the run and registers a version for it. *)
Definition log_model (a : Artifact) (artifact_path registered_model_name : string)
  : M world ModelInfo :=
  run ← current_run;
  let uri := "runs:/" +:+ str (Z.of_nat run) +:+ "/" +:+ artifact_path in
  modify (set_artifact uri a);;
  w ← get;
  modify (set_registry (register_model registered_model_name uri run (registry w)));;
  mret (mkModelInfo uri run).

Definition log_keras_model (m : Model) (artifact_path registered_model_name : string)
  : M world ModelInfo :=
  log_model (KerasModel m) artifact_path registered_model_name.

Definition log_sklearn_model (sc : Scaler) (artifact_path registered_model_name : string)
  : M world ModelInfo :=
  log_model (SklearnModel sc) artifact_path registered_model_name.

(** [mlflow.keras.load_model(uri)] and [mlflow.sklearn.load_model(uri)] *)
Definition mflow_load_model (uri : string) : M world Model :=
  w ← get;
  match artifacts w !! uri with
  | Some (KerasModel m) => mret m
  | _ => raise (MlflowException "no keras model at this uri")
  end.

Definition load_scaler (uri : string) : M world Scaler :=
  w ← get;
  match artifacts w !! uri with
  | Some (SklearnModel sc) => mret sc
  | _ => raise (MlflowException "no sklearn model at this uri")
  end.

(** The [MlflowClient] methods, on the world's registry. *)
Definition client_get_latest_versions (name : string) (stages : list Stage)
  : M world (list ModelVersion) :=
  w ← get; lift (get_latest_versions name stages (registry w)).

Definition client_create_model_version (name src : string) (run : nat)
  : M world ModelVersion :=
  w ← get;
  '(mv, r) ← lift (create_model_version name src run (registry w));
  modify (set_registry r);; mret mv.

Definition client_transition_model_version_stage (name : string) (v : nat) (st : Stage)
  : M world unit :=
  w ← get;
  r ← lift (transition_model_version_stage name v st (registry w));
  modify (set_registry r).

End Tracking.

(** ** [src/models/scripts/predict_model.py] *)
Module PredictModel.
Section Script.
Context {R : Repo}.

Import Registry.

Definition get_production_model (station_number : Z) : M world (option Model) :=
  try_except_IndexError
    (versions ← client_get_latest_versions ("mbajk_station_" +:+ str station_number)
                  [Production];
     model_version ← lift (first_item versions);
     let model_url := source model_version in
     production_model ← mflow_load_model model_url;
     mret (Some production_model))
    (mret None).

Definition get_production_scaler (station_number : Z) : M world (option Scaler) :=
  try_except_IndexError
    (versions ← client_get_latest_versions
                  ("mbajk_station_" +:+ str station_number +:+ "_scaler") [Production];
     model_version ← lift (first_item versions);
     let model_url := source model_version in
     production_scaler ← load_scaler model_url;
     mret (Some production_scaler))
    (mret None).

Definition get_latest_model_version (station_number : Z) : M world Model :=
  versions ← client_get_latest_versions ("mbajk_station_" +:+ str station_number) [Staging];
  model_version ← lift (first_item versions);
  let model_url := source model_version in
  mflow_load_model model_url.

Definition get_latest_scaler_version (station_number : Z) : M world Scaler :=
  versions ← client_get_latest_versions
                ("mbajk_station_" +:+ str station_number +:+ "_scaler") [Staging];
  model_version ← lift (first_item versions);
  let model_url := source model_version in
  load_scaler model_url.

Definition update_production_model (station_number : Z) : M world unit :=
  model_versions ← client_get_latest_versions ("mbajk_station_" +:+ str station_number)
                      [Staging];
  new_model ← lift (first_item model_versions);
  let new_model_version := version new_model in
  scaler_versions ← client_get_latest_versions
                       ("mbajk_station_" +:+ str station_number +:+ "_scaler") [Staging];
  new_scaler ← lift (first_item scaler_versions);
  let new_scaler_version := version new_scaler in
  client_transition_model_version_stage ("mbajk_station_" +:+ str station_number)
    new_model_version Production;;
  client_transition_model_version_stage
    ("mbajk_station_" +:+ str station_number +:+ "_scaler") new_scaler_version Production.

Definition predict_model_pipeline (station_number : Z) : M world unit :=
  start_run ("mbajk_station_" +:+ str station_number);;
  dataset ← helper (CallLoadDataset (str station_number) "test")
              (load_bike_station_dataset (str station_number) "test");
  production_model ← get_production_model station_number;
  production_scaler ← get_production_scaler station_number;
  model ← get_latest_model_version station_number;
  scaler ← get_latest_scaler_version station_number;
  '(train_data, test_data) ← helper (CallSplit (str station_number))
                                (create_test_train_split (str station_number));
  '(scaler, (_, _, X_test, y_test)) ←
      helper (CallPrepare dataset scaler train_data test_data)
        (prepare_model_data dataset scaler train_data test_data);
  (* latest model metrics *)
  y_pred ← helper (CallPredict model X_test) (predict model X_test);
  '(mse_test, mae_test, evs_test) ←
      helper (CallEvaluate y_test y_pred dataset scaler)
        (evaluate_model_performance y_test y_pred dataset scaler);
  log_metric "MSE_test" mse_test;;
  log_metric "MAE_test" mae_test;;
  log_metric "EVS_test" evs_test;;
  match production_model, production_scaler with
  | None, _ | _, None =>
      (* no production model: the latest model becomes production *)
      update_production_model station_number
  | Some production_model, Some production_scaler =>
      (* production metrics *)
      y_prod ← helper (CallPredict production_model X_test)
                 (predict production_model X_test);
      '(mse_production, mae_production, evs_production) ←
          helper (CallEvaluate y_test y_prod dataset production_scaler)
            (evaluate_model_performance y_test y_prod dataset production_scaler);
      (* set model to production if it performs better *)
      if (mse_test <? mse_production)%float
      then update_production_model station_number
      else mret tt
  end;;
  modify (add_call (WriteMetrics ("reports/station_" +:+ str station_number +:+ "/metrics.txt")
                      (name model) mse_test mae_test evs_test));;
  end_run.

(** [main], given the station folders found under [data/processed].  The
    set-up of the tracking client before the loop and the timing decorator
    around [main] are left out. *)
Definition main (station_numbers : list Z) : M world unit :=
  for_each station_numbers predict_model_pipeline.

End Script.
End PredictModel.

(** ** [src/models/scripts/train_model.py] *)
Module TrainModel.
Section Script.
Context {R : Repo}.

Import Registry.

Definition train_model_pipeline (station_number : Z) : M world unit :=
  start_run ("mbajk_station_" +:+ str station_number);;
  dataset ← helper (CallLoadDataset (str station_number) "train")
              (load_bike_station_dataset (str station_number) "train");
  let scaler := MinMaxScaler in
  '(train_data, test_data) ← helper (CallSplit (str station_number))
                                (create_test_train_split (str station_number));
  '(scaler, (X_train, y_train, X_test, y_test)) ←
      helper (CallPrepare dataset scaler train_data test_data)
        (prepare_model_data dataset scaler train_data test_data);
  model ← helper (CallTrain X_train y_train X_test y_test)
            (train_model X_train y_train X_test y_test 10 32 0);
  log_param "epochs" 10;;
  log_param "batch_size" 32;;
  log_param "dataset_size" (len dataset);;
  (* save model *)
  _ ← helper (CallPredict model X_test) (predict model X_test);
  model_ ← log_keras_model model ("models/station_" +:+ str station_number)
              ("mbajk_station_" +:+ str station_number);
  mv ← client_create_model_version ("mbajk_station_" +:+ str station_number)
          (model_uri model_) (info_run_id model_);
  client_transition_model_version_stage ("mbajk_station_" +:+ str station_number)
    (version mv) Staging;;
  (* save scaler *)
  scaler_ ← log_sklearn_model scaler ("scalers/station_" +:+ str station_number)
               ("mbajk_station_" +:+ str station_number +:+ "_scaler");
  sv ← client_create_model_version ("mbajk_station_" +:+ str station_number +:+ "_scaler")
          (model_uri scaler_) (info_run_id scaler_);
  (* set stage *)
  client_transition_model_version_stage
    ("mbajk_station_" +:+ str station_number +:+ "_scaler") (version sv) Staging;;
  end_run.

(** [main], given the station folders found under [data/processed].  The
    set-up of the tracking client before the loop and the timing decorator
    around [main] are left out. *)
Definition main (station_numbers : list Z) : M world unit :=
  for_each station_numbers train_model_pipeline.

End Script.
End TrainModel.

(** ** [src/serve/routers/prediction.py]

    The route validates its two path parameters and then hands over to the
    services of [src.serve.services], which it only calls. *)
Module Prediction.

Class Services : Type := {
  History : Type;
  MLServiceT : Type;
  PredictionDTO : Type;
  (** [bike_service.get_bike_station_history_data(station_number)] *)
  get_bike_station_history_data : Z -> result History;
  (** [MLService(model_path, scaler_path)] *)
  MLService : string -> string -> result MLServiceT;
  (** [ml_service.predict_multiple(data, n_future)] *)
  ml_predict_multiple : MLServiceT -> History -> Z -> result (list PredictionDTO);
  (** [PredictionService.save(station_number, n_future, predictions)] *)
  save : Z -> Z -> list PredictionDTO -> result unit
}.

Section Route.
Context {S : Services}.

(** The service calls a request has made, oldest first. *)
Inductive service_call : Type :=
| GetHistory (station_number : Z)
| NewMLService (model_path scaler_path : string)
| PredictMultiple (data : History) (n_future : Z)
| Save (station_number n_future : Z) (predictions : list PredictionDTO).

Definition service {A : Type} (c : service_call) (r : result A)
  : M (list service_call) A :=
  modify (fun cs => cs ++ [c]);; lift r.

(** [if cond: raise e] *)
Definition raise_if (cond : bool) (e : exn) : M (list service_call) unit :=
  if cond then raise e else mret tt.

Definition predict_multiple (station_number n_future : Z)
  : M (list service_call) (list PredictionDTO) :=
  raise_if (n_future <? 1)%Z
    (HTTPException 400 "n_future must be greater than 0");;
  raise_if (n_future >? 7)%Z
    (HTTPException 400 "n_future must be less than 8");;
  raise_if ((station_number <? 0)%Z || (station_number >? 29)%Z)
    (HTTPException 400 "station_number must be between 0 and 28");;
  data ← service (GetHistory station_number)
           (get_bike_station_history_data station_number);
  ml_service ← service (NewMLService (str station_number +:+ "/model")
                          (str station_number +:+ "/minmax"))
                 (MLService (str station_number +:+ "/model")
                    (str station_number +:+ "/minmax"));
  predictions ← service (PredictMultiple data n_future)
                  (ml_predict_multiple ml_service data n_future);
  service (Save station_number n_future predictions)
    (save station_number n_future predictions);;
  mret predictions.

End Route.
End Prediction.

(** ** The multi-step forecaster

    [MLService.predict_multiple] lives in [src.serve.services], which is not
    among the sources at hand; the route above only calls it. *)
Module Forecaster.
Section Spec.
Variables Obs Scaled FModel FScaler : Type.
(** The scaler's transform of a window and its inverse on one value, the
    model's one-step prediction, and the model's look-back length. *)
Variable transform : FScaler -> list Obs -> list Scaled.
Variable inverse_transform : FScaler -> Scaled -> Obs.
Variable predict_step : FModel -> list Scaled -> Scaled.
Variable look_back : nat.

(** Modelled from the spec: one round of [MLService.predict_multiple],
    "scale the current window, predict one step" and inverse-scale the
    prediction. *)
Definition predict_next (m : FModel) (sc : FScaler) (window : list Obs) : Obs :=
  inverse_transform sc (predict_step m (transform sc window)).

(** Modelled from the spec: the window of [MLService.predict_multiple]
    after one round, "slide the window forward by appending the new
    prediction as if it were an observation". *)
Definition slide (window : list Obs) (p : Obs) : list Obs :=
  drop 1 window ++ [p].

(** Modelled from the spec: the loop of [MLService.predict_multiple],
    "append the (inverse-scaled) prediction to the output sequence, slide
    the window forward ... and repeat N times". *)
Fixpoint forecast (m : FModel) (sc : FScaler) (N : nat) (window : list Obs) : list Obs :=
  match N with
  | O => []
  | S N' =>
      let p := predict_next m sc window in
      p :: forecast m sc N' (slide window p)
  end.

(** Modelled from the spec: [MLService.predict_multiple] with its error
    conditions, "no production artifact", "invalid horizon" and
    "insufficient history"; the service holds the production pair when
    there is one. *)
Definition predict_multiple (pair : option (FModel * FScaler)) (data : list Obs) (N : Z)
  : result (list Obs) :=
  match pair with
  | None => Raise (OtherError "no production artifact")
  | Some (m, sc) =>
      if ((N <? 1)%Z || (N >? 7)%Z) then Raise (OtherError "invalid horizon")
      else if (length data <? look_back)%nat then Raise (OtherError "insufficient history")
      else Ok (forecast m sc (Z.to_nat N) data)
  end.

(** The services of the route, with the forecaster above behind
    [ml_service.predict_multiple]. *)
Definition services
    (history : Z -> result (list Obs))
    (load : string -> string -> result (option (FModel * FScaler)))
    (store : Z -> Z -> list Obs -> result unit) : Prediction.Services :=
  {| Prediction.History := list Obs;
     Prediction.MLServiceT := option (FModel * FScaler);
     Prediction.PredictionDTO := Obs;
     Prediction.get_bike_station_history_data := history;
     Prediction.MLService := load;
     Prediction.ml_predict_multiple := predict_multiple;
     Prediction.save := store |}.

End Spec.
End Forecaster.

(** ** Names and instances used in the statements *)

(** The registry names of a station's model and of its scaler. *)
Definition model_name (station_number : Z) : string :=
  "mbajk_station_" +:+ str station_number.

Definition scaler_name (station_number : Z) : string :=
  "mbajk_station_" +:+ str station_number +:+ "_scaler".

(** A small repository: a model is the error it makes, a scaler counts how
    often it was fitted, and station 1 has no data. *)
Definition demo : Repo := {|
  Dataset := string;
  Frame := unit;
  Features := unit;
  Targets := float;
  Model := float;
  Scaler := nat;
  load_bike_station_dataset station split :=
    if decide (station = "1") then Raise (OtherError "no data")
    else Ok (station +:+ "/" +:+ split);
  create_test_train_split station := Ok (tt, tt);
  prepare_model_data d sc train_data test_data := Ok (S sc, (tt, 0%float, tt, 0%float));
  evaluate_model_performance y pred d sc := Ok (pred, pred, pred);
  train_model _ _ _ _ _ _ _ := Ok 0.5%float;
  predict m X := Ok m;
  name m := "sequential";
  MinMaxScaler := 0%nat;
  len d := 100%Z
|}.

(** A fresh tracking server. *)
Definition fresh {R : Repo} : world := mkWorld ∅ ∅ None 0 [] [].

(** Two worlds with the same registry and the same artifacts. *)
Definition same_store {R : Repo} (w w' : world) : Prop :=
  registry w = registry w' /\ artifacts w = artifacts w'.

(** The registry once version [v] of [name] has been moved to production. *)
Definition promote (name : string) (v : nat) (r : Registry.t) : Registry.t :=
  <[name := alter (Registry.set_stage Registry.Production) (pred v) (default [] (r !! name))]> r.

(** The registry once a station's model version [vm] and scaler version [vs]
    have both been moved to production, the model first. *)
Definition promote_pair (station_number : Z) (vm vs : nat) (r : Registry.t) : Registry.t :=
  promote (scaler_name station_number) vs (promote (model_name station_number) vm r).

(** The newest version of [name] in stage [st]. *)
Definition newest (name : string) (st : Registry.Stage) (r : Registry.t)
  : option Registry.ModelVersion :=
  es ← r !! name; Registry.latest_in_stage st es.

(** What one promotion cycle sees of its candidate: the newest staging
    versions, what loading them gives, and what the helpers return on the
    way to the candidate's test metrics. *)
Record Candidate {R : Repo} : Type := mkCandidate {
  c_dataset : Dataset;
  c_mv : Registry.ModelVersion;
  c_sv : Registry.ModelVersion;
  c_model : Model;
  c_scaler : Scaler;
  c_train : Frame;
  c_test : Frame;
  c_fitted : Scaler;
  c_X_train : Features;
  c_y_train : Targets;
  c_X_test : Features;
  c_y_test : Targets;
  c_y_pred : Targets;
  c_mse : float;
  c_mae : float;
  c_evs : float
}.

Record candidate_evaluated {R : Repo} (n : Z) (w : world) (c : Candidate) : Prop := {
  ce_no_run : active_run w = None;
  ce_dataset : load_bike_station_dataset (str n) "test" = Ok (c_dataset c);
  ce_mv : newest (model_name n) Registry.Staging (registry w) = Some (c_mv c);
  ce_sv : newest (scaler_name n) Registry.Staging (registry w) = Some (c_sv c);
  ce_model : snd (PredictModel.get_latest_model_version n w) = Ok (c_model c);
  ce_scaler : snd (PredictModel.get_latest_scaler_version n w) = Ok (c_scaler c);
  ce_split : create_test_train_split (str n) = Ok (c_train c, c_test c);
  ce_prepare :
    prepare_model_data (c_dataset c) (c_scaler c) (c_train c) (c_test c) =
      Ok (c_fitted c, (c_X_train c, c_y_train c, c_X_test c, c_y_test c));
  ce_predict : predict (c_model c) (c_X_test c) = Ok (c_y_pred c);
  ce_evaluate :
    evaluate_model_performance (c_y_test c) (c_y_pred c) (c_dataset c) (c_fitted c) =
      Ok (c_mse c, c_mae c, c_evs c)
}.

(** What the cycle sees of the production pair, when there is one. *)
Record Baseline {R : Repo} : Type := mkBaseline {
  b_model : Model;
  b_scaler : Scaler;
  b_y_pred : Targets;
  b_mse : float;
  b_mae : float;
  b_evs : float
}.

Record baseline_evaluated {R : Repo} (n : Z) (w : world) (c : Candidate) (b : Baseline)
  : Prop := {
  be_model : snd (PredictModel.get_production_model n w) = Ok (Some (b_model b));
  be_scaler : snd (PredictModel.get_production_scaler n w) = Ok (Some (b_scaler b));
  be_predict : predict (b_model b) (c_X_test c) = Ok (b_y_pred b);
  be_evaluate :
    evaluate_model_performance (c_y_test c) (b_y_pred b) (c_dataset c) (b_scaler b) =
      Ok (b_mse b, b_mae b, b_evs b)
}.

(** Cold start: both look-ups return, and one of them found nothing. *)
Definition no_baseline {R : Repo} (n : Z) (w : world) : Prop :=
  exists (production_model : option Model) (production_scaler : option Scaler),
    snd (PredictModel.get_production_model n w) = Ok production_model /\
    snd (PredictModel.get_production_scaler n w) = Ok production_scaler /\
    (production_model = None \/ production_scaler = None).

(** The helper calls of a cycle up to the candidate's metrics, those of the
    production evaluation, and the report that ends the cycle. *)
Definition candidate_calls {R : Repo} (n : Z) (c : Candidate) : list call :=
  [CallLoadDataset (str n) "test";
   CallSplit (str n);
   CallPrepare (c_dataset c) (c_scaler c) (c_train c) (c_test c);
   CallPredict (c_model c) (c_X_test c);
   CallEvaluate (c_y_test c) (c_y_pred c) (c_dataset c) (c_fitted c);
   LogMetric "MSE_test" (c_mse c);
   LogMetric "MAE_test" (c_mae c);
   LogMetric "EVS_test" (c_evs c)].

Definition baseline_calls {R : Repo} (c : Candidate) (b : Baseline) : list call :=
  [CallPredict (b_model b) (c_X_test c);
   CallEvaluate (c_y_test c) (b_y_pred b) (c_dataset c) (b_scaler b)].

Definition report_call {R : Repo} (n : Z) (c : Candidate) : call :=
  WriteMetrics ("reports/station_" +:+ str n +:+ "/metrics.txt") (name (c_model c))
    (c_mse c) (c_mae c) (c_evs c).

(** The world a cycle started in [w] leaves when it ends its run with
    registry [r], having written the registries [ws] and made the calls [cs]. *)
Definition finished {R : Repo} (w : world) (r : Registry.t) (ws : list Registry.t)
    (cs : list call) : world :=
  mkWorld r (artifacts w) None (S (runs_started w)) (writes w ++ ws) (calls w ++ cs).

(** The registry writes of a promotion: the model's, then the scaler's. *)
Definition promotion_writes (n : Z) (vm vs : nat) (r : Registry.t) : list Registry.t :=
  [promote (model_name n) vm r; promote_pair n vm vs r].

(** Worlds of the small repository: station 2 trained once, then promoted
    (cold start), then trained again, and the same with a better second
    model. *)
Definition trained_once : @world demo := fst (TrainModel.main [2%Z] fresh).

Definition promoted_once : @world demo := fst (PredictModel.main [2%Z] trained_once).

Definition trained_twice : @world demo := fst (TrainModel.main [2%Z] promoted_once).

Definition better_candidate : @world demo :=
  set_artifact "runs:/3/models/station_2" (KerasModel (R := demo) 0.25%float) trained_twice.

(** The candidate of station 2 after its second training, with model [m],
    and the production pair it meets. *)
Definition second_candidate (m : float) : @Candidate demo :=
  mkCandidate demo "2/test"
    (Registry.mkModelVersion 4 3 "runs:/3/models/station_2" Registry.Staging)
    (Registry.mkModelVersion 4 3 "runs:/3/scalers/station_2" Registry.Staging)
    m 1%nat tt tt 2%nat tt 0%float tt 0%float m m m m.

Definition first_baseline : @Baseline demo :=
  mkBaseline demo 0.5%float 1%nat 0.5%float 0.5%float 0.5%float 0.5%float.

(** The candidate of station 2 after its first training. *)
Definition first_candidate : @Candidate demo :=
  mkCandidate demo "2/test"
    (Registry.mkModelVersion 2 1 "runs:/1/models/station_2" Registry.Staging)
    (Registry.mkModelVersion 2 1 "runs:/1/scalers/station_2" Registry.Staging)
    0.5%float 1%nat tt tt 2%nat tt 0%float tt 0%float 0.5%float 0.5%float 0.5%float
    0.5%float.

(** Where a run stores an artifact. *)
Definition artifact_uri (run : nat) (artifact_path : string) : string :=
  "runs:/" +:+ str (Z.of_nat run) +:+ "/" +:+ artifact_path.

(** The registry once a run has logged an artifact under [name], created a
    version for it and moved that version to staging, and the three
    registries written on the way. *)
Definition staged (name uri : string) (run : nat) (r : Registry.t) : Registry.t :=
  <[name := default [] (r !! name) ++
            [Registry.mkEntry run uri Registry.NoStage;
             Registry.mkEntry run uri Registry.Staging]]> r.

Definition staging_writes (name uri : string) (run : nat) (r : Registry.t)
  : list Registry.t :=
  [<[name := default [] (r !! name) ++ [Registry.mkEntry run uri Registry.NoStage]]> r;
   <[name := default [] (r !! name) ++
             [Registry.mkEntry run uri Registry.NoStage;
              Registry.mkEntry run uri Registry.NoStage]]> r;
   staged name uri run r].

(** What one training cycle gets from the helpers. *)
Record Training {R : Repo} : Type := mkTraining {
  t_dataset : Dataset;
  t_train : Frame;
  t_test : Frame;
  t_scaler : Scaler;
  t_X_train : Features;
  t_y_train : Targets;
  t_X_test : Features;
  t_y_test : Targets;
  t_model : Model;
  t_y_pred : Targets
}.

Record training_succeeds {R : Repo} (n : Z) (w : world) (t : Training) : Prop := {
  ts_no_run : active_run w = None;
  ts_dataset : load_bike_station_dataset (str n) "train" = Ok (t_dataset t);
  ts_split : create_test_train_split (str n) = Ok (t_train t, t_test t);
  ts_prepare :
    prepare_model_data (t_dataset t) MinMaxScaler (t_train t) (t_test t) =
      Ok (t_scaler t, (t_X_train t, t_y_train t, t_X_test t, t_y_test t));
  ts_train :
    train_model (t_X_train t) (t_y_train t) (t_X_test t) (t_y_test t) 10 32 0 =
      Ok (t_model t);
  ts_predict : predict (t_model t) (t_X_test t) = Ok (t_y_pred t)
}.

Definition training_calls {R : Repo} (n : Z) (t : Training) : list call :=
  [CallLoadDataset (str n) "train";
   CallSplit (str n);
   CallPrepare (t_dataset t) MinMaxScaler (t_train t) (t_test t);
   CallTrain (t_X_train t) (t_y_train t) (t_X_test t) (t_y_test t);
   LogParam "epochs" 10;
   LogParam "batch_size" 32;
   LogParam "dataset_size" (len (t_dataset t));
   CallPredict (t_model t) (t_X_test t)].

(** The registry after the model of a training cycle is staged, and the
    world the cycle leaves. *)
Definition model_staged (n : Z) (run : nat) (r : Registry.t) : Registry.t :=
  staged (model_name n) (artifact_uri run ("models/station_" +:+ str n)) run r.

Definition trained {R : Repo} (n : Z) (w : world) (t : Training) : world :=
  let run := S (runs_started w) in
  let model_uri := artifact_uri run ("models/station_" +:+ str n) in
  let scaler_uri := artifact_uri run ("scalers/station_" +:+ str n) in
  mkWorld
    (staged (scaler_name n) scaler_uri run (model_staged n run (registry w)))
    (<[scaler_uri := SklearnModel (t_scaler t)]>
       (<[model_uri := KerasModel (t_model t)]> (artifacts w)))
    None run
    (writes w ++
     staging_writes (model_name n) model_uri run (registry w) ++
     staging_writes (scaler_name n) scaler_uri run (model_staged n run (registry w)))
    (calls w ++ training_calls n t).

(** No version is in production in [r'] that was not already in [r]. *)
Definition no_new_production (r r' : Registry.t) : Prop :=
  forall name v,
    Registry.stage_of name v r' = Some Registry.Production ->
    Registry.stage_of name v r = Some Registry.Production.

(** The training of station 2 in the small repository. *)
Definition demo_training : @Training demo :=
  mkTraining demo "2/train" tt tt 1%nat tt 0%float tt 0%float 0.5%float 0.5%float.

(** Services for one request of the route: a forecaster over integers that
    repeats the sum of its window, the history [1; 2; 3] for every station,
    and a store that accepts everything. *)
Definition demo_services : Prediction.Services :=
  Forecaster.services Z Z unit unit
    (fun _ window => window) (fun _ p => p) (fun _ window => foldr Z.add 0%Z window) 3
    (fun _ => Ok [1; 2; 3]%Z) (fun _ _ => Ok (Some (tt, tt))) (fun _ _ _ => Ok tt).

(** The versions registered under [name], none when it is not registered. *)
Definition entries (name : string) (r : Registry.t) : list Registry.entry :=
  default [] (r !! name).

(** A station's registry is split when some version of its model is in
    production while a version of its scaler from the same run is in
    staging, or the other way round. *)
Definition split_pair (n : Z) (r : Registry.t) : Prop :=
  exists i j em es,
    entries (model_name n) r !! i = Some em /\
    entries (scaler_name n) r !! j = Some es /\
    Registry.entry_run_id em = Registry.entry_run_id es /\
    (Registry.entry_stage em = Registry.Production /\
     Registry.entry_stage es = Registry.Staging \/
     Registry.entry_stage em = Registry.Staging /\
     Registry.entry_stage es = Registry.Production).

(** A station's model and scaler are paired when their versions carry the
    same runs and the same stages, version by version, a run has at most one
    version that ever left the initial stage, and no run is beyond [bound]. *)
Record paired (n : Z) (bound : nat) (r : Registry.t) : Prop := {
  paired_runs :
    Registry.entry_run_id <$> entries (model_name n) r =
    Registry.entry_run_id <$> entries (scaler_name n) r;
  paired_stages :
    Registry.entry_stage <$> entries (model_name n) r =
    Registry.entry_stage <$> entries (scaler_name n) r;
  paired_single :
    forall i j e1 e2,
      i <> j ->
      entries (model_name n) r !! i = Some e1 ->
      entries (model_name n) r !! j = Some e2 ->
      Registry.entry_run_id e1 = Registry.entry_run_id e2 ->
      Registry.entry_stage e1 = Registry.NoStage \/
      Registry.entry_stage e2 = Registry.NoStage;
  paired_bound :
    forall i e, entries (model_name n) r !! i = Some e ->
                (Registry.entry_run_id e <= bound)%nat
}.

(** The worlds between cycles: a fresh tracking server, and what a training
    cycle or a promotion cycle that went through leaves of such a world. *)
Inductive reachable {R : Repo} : world -> Prop :=
| reachable_fresh : reachable fresh
| reachable_train (n : Z) (w w' : world) :
    reachable w -> TrainModel.train_model_pipeline n w = (w', Ok tt) -> reachable w'
| reachable_promote (n : Z) (w w' : world) :
    reachable w -> PredictModel.predict_model_pipeline n w = (w', Ok tt) -> reachable w'.

(** Whether a string has an underscore. *)
Fixpoint has_underscore (s : string) : bool :=
  match s with
  | EmptyString => false
  | String c s' => if Ascii.eqb c "_"%char then true else has_underscore s'
  end.

(** The world after station 2's first promotion, with the artifact store
    lost. *)
Definition lost_artifacts : @world demo :=
  mkWorld (registry promoted_once) ∅ None 2 [] [].

(** What a cycle that raised leaves of the world [w] it started in: the
    server as it was, and the run it opened still open. *)
Definition left_untouched {R : Repo} (w w' : world) : Prop :=
  registry w' = registry w /\ artifacts w' = artifacts w /\ writes w' = writes w /\
  (active_run w = None -> active_run w' = Some (S (runs_started w))).

(** Station 2 trained twice, the second model's error not a number. *)
Definition nan_candidate : @world demo :=
  set_artifact "runs:/3/models/station_2" (KerasModel (R := demo) nan) trained_twice.

(** * Properties *)

(** ** The monad *)

Lemma bind_Ok {S A B : Type} (m : M S A) (k : A -> M S B) (s s' : S) (a : A) :
  m s = (s', Ok a) -> (m ≫= k) s = k a s'.
Proof. intros H. unfold mbind, M_bind, bind. now rewrite H. Qed.

Lemma bind_Raise {S A B : Type} (m : M S A) (k : A -> M S B) (s s' : S) (e : exn) :
  m s = (s', Raise e) -> (m ≫= k) s = (s', Raise e).
Proof. intros H. unfold mbind, M_bind, bind. now rewrite H. Qed.

(** Run the next statement with [tac], which proves what it returns. *)
Ltac run tac := erewrite bind_Ok by tac; cbv beta iota.

(** ** The registry *)
Module RegistryFacts.
Import Registry.

Lemma latest_from_Some (v : nat) (st : Stage) (es : list entry) (mv : ModelVersion) :
  latest_from v st es = Some mv ->
  exists i e, es !! i = Some e /\ entry_stage e = st /\ mv = model_version_of (v + i) e
    /\ forall j e', (i < j)%nat -> es !! j = Some e' -> entry_stage e' <> st.
Proof.
  revert v. induction es as [|e0 es IH]; intros v H; simpl in H; [discriminate|].
  destruct (latest_from (S v) st es) as [mv'|] eqn:E.
  - injection H as ->. destruct (IH _ E) as (i & e & Hi & Hst & Hmv & Hlast).
    exists (S i), e. repeat split; try assumption.
    + rewrite Hmv. f_equal. lia.
    + intros [|j] e' Hj Hl; [lia|]. apply (Hlast j e'); [lia|exact Hl].
  - destruct (decide (entry_stage e0 = st)) as [Hst|]; [|discriminate].
    injection H as <-. exists 0%nat, e0. repeat split; try assumption.
    + f_equal. lia.
    + intros [|j] e' Hj Hl; [lia|]. simpl in Hl.
      clear -E Hl. revert v j E Hl. induction es as [|e1 es IH]; intros v j E Hl.
      * destruct j; discriminate.
      * simpl in E. destruct (latest_from (S (S v)) st es) eqn:E'; [discriminate|].
        destruct (decide (entry_stage e1 = st)); [discriminate|].
        destruct j as [|j]; simpl in Hl.
        -- now injection Hl as <-.
        -- exact (IH _ _ E' Hl).
Qed.

Lemma latest_in_stage_Some (st : Stage) (es : list entry) (mv : ModelVersion) :
  latest_in_stage st es = Some mv ->
  exists i e, es !! i = Some e /\ entry_stage e = st /\ mv = model_version_of (S i) e
    /\ forall j e', (i < j)%nat -> es !! j = Some e' -> entry_stage e' <> st.
Proof. intros H. exact (latest_from_Some 1 st es mv H). Qed.

End RegistryFacts.

(** Unfold the monad's operations. *)
Ltac monad :=
  unfold mbind, mret, M_bind, M_ret, bind, ret, get, modify, lift, raise,
    try_except_IndexError.

(** Reduce the projections of a world that setters built. *)
Ltac proj :=
  cbn [registry artifacts active_run runs_started writes calls
       set_registry set_artifact set_active_run add_call].

(** ** The tracking server *)
Section TrackingFacts.
Context {R : Repo}.
Import Registry.

Lemma start_run_None (run_name : string) (w : world) :
  active_run w = None ->
  start_run run_name w =
    (set_active_run (Some (S (runs_started w))) (S (runs_started w)) w,
     Ok (S (runs_started w))).
Proof. intros H. unfold start_run. monad. now rewrite H. Qed.

Lemma world_ext (w1 w2 : world) :
  registry w1 = registry w2 -> artifacts w1 = artifacts w2 ->
  active_run w1 = active_run w2 -> runs_started w1 = runs_started w2 ->
  writes w1 = writes w2 -> calls w1 = calls w2 -> w1 = w2.
Proof. destruct w1, w2. simpl. now intros -> -> -> -> -> ->. Qed.

Lemma helper_Ok {A : Type} (c : call) (r : result A) (a : A) (w : world) :
  r = Ok a -> helper c r w = (add_call c w, Ok a).
Proof. now intros ->. Qed.

Lemma helper_Raise {A : Type} (c : call) (r : result A) (e : exn) (w : world) :
  r = Raise e -> helper c r w = (add_call c w, Raise e).
Proof. now intros ->. Qed.

Lemma get_production_model_reads (n : Z) (w w' : world) :
  same_store w w' ->
  PredictModel.get_production_model n w' = (w', snd (PredictModel.get_production_model n w)).
Proof.
  intros [Hr Ha]. unfold PredictModel.get_production_model,
    client_get_latest_versions, mflow_load_model, get_latest_versions.
  monad. rewrite <- Hr, <- Ha.
  destruct (registry w !! _) as [es|]; cbn; [|reflexivity].
  destruct (latest_in_stage Production es) as [mv|]; cbn; [|reflexivity].
  destruct (artifacts w !! _) as [[m|sc]|]; reflexivity.
Qed.

Lemma get_production_scaler_reads (n : Z) (w w' : world) :
  same_store w w' ->
  PredictModel.get_production_scaler n w' = (w', snd (PredictModel.get_production_scaler n w)).
Proof.
  intros [Hr Ha]. unfold PredictModel.get_production_scaler,
    client_get_latest_versions, load_scaler, get_latest_versions.
  monad. rewrite <- Hr, <- Ha.
  destruct (registry w !! _) as [es|]; cbn; [|reflexivity].
  destruct (latest_in_stage Production es) as [mv|]; cbn; [|reflexivity].
  destruct (artifacts w !! _) as [[m|sc]|]; reflexivity.
Qed.

Lemma get_latest_model_version_reads (n : Z) (w w' : world) :
  same_store w w' ->
  PredictModel.get_latest_model_version n w' =
    (w', snd (PredictModel.get_latest_model_version n w)).
Proof.
  intros [Hr Ha]. unfold PredictModel.get_latest_model_version,
    client_get_latest_versions, mflow_load_model, get_latest_versions.
  monad. rewrite <- Hr, <- Ha.
  destruct (registry w !! _) as [es|]; cbn; [|reflexivity].
  destruct (latest_in_stage Staging es) as [mv|]; cbn; [|reflexivity].
  destruct (artifacts w !! _) as [[m|sc]|]; reflexivity.
Qed.

Lemma get_latest_scaler_version_reads (n : Z) (w w' : world) :
  same_store w w' ->
  PredictModel.get_latest_scaler_version n w' =
    (w', snd (PredictModel.get_latest_scaler_version n w)).
Proof.
  intros [Hr Ha]. unfold PredictModel.get_latest_scaler_version,
    client_get_latest_versions, load_scaler, get_latest_versions.
  monad. rewrite <- Hr, <- Ha.
  destruct (registry w !! _) as [es|]; cbn; [|reflexivity].
  destruct (latest_in_stage Staging es) as [mv|]; cbn; [|reflexivity].
  destruct (artifacts w !! _) as [[m|sc]|]; reflexivity.
Qed.

(** A successful load of the latest staging model means its name has a
    newest staging version. *)
Lemma get_latest_model_version_Ok (n : Z) (w : world) (m : Model) :
  snd (PredictModel.get_latest_model_version n w) = Ok m ->
  exists es mv, registry w !! model_name n = Some es /\ latest_in_stage Staging es = Some mv.
Proof.
  unfold PredictModel.get_latest_model_version,
    client_get_latest_versions, mflow_load_model, get_latest_versions, model_name.
  monad.
  destruct (registry w !! _) as [es|]; cbn; [|discriminate].
  destruct (latest_in_stage Staging es) as [mv|] eqn:E; cbn; [|discriminate].
  intros _. now exists es, mv.
Qed.

Lemma get_latest_scaler_version_Ok (n : Z) (w : world) (sc : Scaler) :
  snd (PredictModel.get_latest_scaler_version n w) = Ok sc ->
  exists es sv, registry w !! scaler_name n = Some es /\ latest_in_stage Staging es = Some sv.
Proof.
  unfold PredictModel.get_latest_scaler_version,
    client_get_latest_versions, load_scaler, get_latest_versions, scaler_name.
  monad.
  destruct (registry w !! _) as [es|]; cbn; [|discriminate].
  destruct (latest_in_stage Staging es) as [mv|] eqn:E; cbn; [|discriminate].
  intros _. now exists es, mv.
Qed.

Lemma at_store {A : Type} (f : world -> world * result A) (w w' : world) (r : result A) :
  (forall v v', same_store v v' -> f v' = (v', snd (f v))) ->
  same_store w w' -> snd (f w) = r -> f w' = (w', r).
Proof. intros Hf Hs <-. now apply Hf. Qed.

Lemma newest_Some (name : string) (st : Stage) (r : Registry.t) (mv : ModelVersion) :
  newest name st r = Some mv ->
  exists es, r !! name = Some es /\ latest_in_stage st es = Some mv.
Proof.
  unfold newest. destruct (r !! name) as [es|]; simpl; [|discriminate].
  intros H. now exists es.
Qed.

End TrackingFacts.

(** ** Promotion *)
Section PromotionFacts.
Context {R : Repo}.
Import Registry.

Lemma length_append (s1 s2 : string) :
  String.length (s1 +:+ s2) = (String.length s1 + String.length s2)%nat.
Proof. induction s1 as [|c s1 IH]; simpl; [reflexivity|now rewrite IH]. Qed.

Lemma model_name_not_scaler_name (n : Z) : model_name n <> scaler_name n.
Proof.
  unfold model_name, scaler_name. intros H. apply String.app_inj in H.
  apply (f_equal String.length) in H. rewrite length_append in H. simpl in H. lia.
Qed.

Lemma transition_latest (name : string) (st st' : Stage) (r : Registry.t)
    (es : list entry) (mv : ModelVersion) :
  r !! name = Some es -> latest_in_stage st es = Some mv ->
  transition_model_version_stage name (version mv) st' r =
    Ok (<[name := alter (set_stage st') (pred (version mv)) es]> r).
Proof.
  intros Hr Hl. apply RegistryFacts.latest_in_stage_Some in Hl.
  destruct Hl as (i & e & Hi & _ & -> & _).
  unfold transition_model_version_stage. rewrite Hr. simpl. now rewrite Hi.
Qed.

Lemma update_production_model_Ok (n : Z) (w : world) (ems ess : list entry)
    (mv sv : ModelVersion) :
  registry w !! model_name n = Some ems ->
  registry w !! scaler_name n = Some ess ->
  latest_in_stage Staging ems = Some mv ->
  latest_in_stage Staging ess = Some sv ->
  PredictModel.update_production_model n w =
    (set_registry (promote_pair n (version mv) (version sv) (registry w))
       (set_registry (promote (model_name n) (version mv) (registry w)) w), Ok tt).
Proof.
  intros Hm Hs Hlm Hls.
  unfold PredictModel.update_production_model, client_get_latest_versions,
    client_transition_model_version_stage, get_latest_versions.
  fold (model_name n). fold (scaler_name n). monad. cbn.
  rewrite Hm, Hs. cbn. rewrite Hlm, Hls. cbn.
  rewrite (transition_latest _ _ _ _ _ _ Hm Hlm).
  cbn.
  assert (Hs' : <[model_name n := alter (set_stage Production) (pred (version mv)) ems]>
                  (registry w) !! scaler_name n = Some ess).
  { rewrite lookup_insert_ne; [exact Hs|apply model_name_not_scaler_name]. }
  rewrite (transition_latest _ _ _ _ _ _ Hs' Hls).
  unfold promote_pair, promote. rewrite Hm. cbn. rewrite Hs'. reflexivity.
Qed.

End PromotionFacts.

(** ** One promotion cycle *)
Section CycleFacts.
Context {R : Repo}.
Import Registry.

Lemma update_production_model_newest (n : Z) (w w' : world) (mv sv : ModelVersion) :
  same_store w w' ->
  newest (model_name n) Staging (registry w) = Some mv ->
  newest (scaler_name n) Staging (registry w) = Some sv ->
  PredictModel.update_production_model n w' =
    (set_registry (promote_pair n (version mv) (version sv) (registry w))
       (set_registry (promote (model_name n) (version mv) (registry w)) w'), Ok tt).
Proof.
  intros [Hr _] Hm Hs. rewrite Hr in *.
  apply newest_Some in Hm as (ems & Hm & Hlm).
  apply newest_Some in Hs as (ess & Hs & Hls).
  exact (update_production_model_Ok n w' ems ess mv sv Hm Hs Hlm Hls).
Qed.

(** The statements of a cycle up to the candidate's metrics. *)
Ltac run_candidate w :=
  run ltac:(apply start_run_None; assumption);
  run ltac:(apply helper_Ok; eassumption);
  run ltac:(eapply (at_store _ w);
            [apply get_production_model_reads|split; reflexivity|eassumption]);
  run ltac:(eapply (at_store _ w);
            [apply get_production_scaler_reads|split; reflexivity|eassumption]);
  run ltac:(eapply (at_store _ w);
            [apply get_latest_model_version_reads|split; reflexivity|eassumption]);
  run ltac:(eapply (at_store _ w);
            [apply get_latest_scaler_version_reads|split; reflexivity|eassumption]);
  do 4 run ltac:(apply helper_Ok; eassumption);
  do 3 run ltac:(reflexivity).

(** Two worlds are equal when their fields are, the call lists up to
    re-association. *)
Ltac same_world :=
  unfold end_run; monad; f_equal; apply world_ext;
  unfold finished, candidate_calls, baseline_calls, promotion_writes; proj;
  rewrite <- ?app_assoc, ?app_nil_r; reflexivity.

Lemma cycle_baseline (n : Z) (w : world) (c : Candidate) (b : Baseline) :
  candidate_evaluated n w c -> baseline_evaluated n w c b ->
  PredictModel.predict_model_pipeline n w =
    if (c_mse c <? b_mse b)%float
    then (finished w (promote_pair n (version (c_mv c)) (version (c_sv c)) (registry w))
            (promotion_writes n (version (c_mv c)) (version (c_sv c)) (registry w))
            (candidate_calls n c ++ baseline_calls c b ++ [report_call n c]), Ok tt)
    else (finished w (registry w) []
            (candidate_calls n c ++ baseline_calls c b ++ [report_call n c]), Ok tt).
Proof.
  intros [] [].
  unfold PredictModel.predict_model_pipeline.
  run_candidate w.
  destruct (c_mse c <? b_mse b)%float eqn:Hlt.
  - run ltac:(run ltac:(apply helper_Ok; eassumption);
              run ltac:(apply helper_Ok; eassumption);
              rewrite Hlt;
              eapply (update_production_model_newest n w); [split; reflexivity|eassumption..]).
    run ltac:(reflexivity).
    same_world.
  - run ltac:(run ltac:(apply helper_Ok; eassumption);
              run ltac:(apply helper_Ok; eassumption);
              rewrite Hlt; reflexivity).
    run ltac:(reflexivity).
    same_world.
Qed.

Lemma cycle_cold_start (n : Z) (w : world) (c : Candidate) :
  candidate_evaluated n w c -> no_baseline n w ->
  PredictModel.predict_model_pipeline n w =
    (finished w (promote_pair n (version (c_mv c)) (version (c_sv c)) (registry w))
       (promotion_writes n (version (c_mv c)) (version (c_sv c)) (registry w))
       (candidate_calls n c ++ [report_call n c]), Ok tt).
Proof.
  intros [] (opm & ops & Hpm & Hps & Hnone).
  unfold PredictModel.predict_model_pipeline.
  run_candidate w.
  assert (Hupd : (match opm, ops with
                  | None, _ | _, None => PredictModel.update_production_model n
                  | Some production_model, Some production_scaler =>
                      y_prod ← helper (CallPredict production_model (c_X_test c))
                                 (predict production_model (c_X_test c));
                      '(mse_production, _, _) ←
                          helper (CallEvaluate (c_y_test c) y_prod (c_dataset c)
                                    production_scaler)
                            (evaluate_model_performance (c_y_test c) y_prod (c_dataset c)
                               production_scaler);
                      if (c_mse c <? mse_production)%float
                      then PredictModel.update_production_model n
                      else mret tt
                  end) = PredictModel.update_production_model n).
  { destruct Hnone as [-> | ->]; [reflexivity|]. now destruct opm. }
  rewrite Hupd.
  run ltac:(eapply (update_production_model_newest n w); [split; reflexivity|eassumption..]).
  run ltac:(reflexivity).
  same_world.
Qed.

(** A registered model with no version in production is a cold start,
    whatever the look-up of the scaler returns. *)
Lemma no_production_model_is_cold_start (n : Z) (w : world) (ems : list entry)
    (production_scaler : option Scaler) :
  registry w !! model_name n = Some ems ->
  latest_in_stage Production ems = None ->
  snd (PredictModel.get_production_scaler n w) = Ok production_scaler ->
  no_baseline n w.
Proof.
  intros Hr Hl Hs. exists None, production_scaler. repeat split; [|exact Hs|now left].
  unfold PredictModel.get_production_model, client_get_latest_versions,
    get_latest_versions. fold (model_name n). monad. rewrite Hr. simpl.
  now rewrite Hl.
Qed.

(** The stage of a version after a promotion. *)
Lemma stage_of_promote (name : string) (r : Registry.t) (mv : ModelVersion) (st : Stage) :
  newest name st r = Some mv ->
  stage_of name (version mv) (promote name (version mv) r) = Some Production.
Proof.
  intros H. apply newest_Some in H as (es & Hr & Hl).
  apply RegistryFacts.latest_in_stage_Some in Hl as (i & e & Hi & _ & -> & _).
  unfold stage_of, promote. cbn. rewrite lookup_insert_eq. cbn.
  rewrite Hr. cbn. rewrite list_lookup_alter_eq, Hi. reflexivity.
Qed.

Lemma stage_of_promote_ne (name name' : string) (v v' : nat) (r : Registry.t) :
  name <> name' -> stage_of name' v' (promote name v r) = stage_of name' v' r.
Proof.
  intros H. unfold stage_of, promote. destruct v'; [reflexivity|].
  now rewrite lookup_insert_ne.
Qed.

Lemma stage_of_newest (name : string) (r : Registry.t) (mv : ModelVersion) (st : Stage) :
  newest name st r = Some mv -> stage_of name (version mv) r = Some st.
Proof.
  intros H. apply newest_Some in H as (es & Hr & Hl).
  apply RegistryFacts.latest_in_stage_Some in Hl as (i & e & Hi & Hst & -> & _).
  unfold stage_of. cbn. rewrite Hr. cbn. rewrite Hi. cbn. now rewrite Hst.
Qed.

Lemma stage_of_promote_pair (n : Z) (r : Registry.t) (mv sv : ModelVersion) :
  newest (model_name n) Staging r = Some mv ->
  newest (scaler_name n) Staging r = Some sv ->
  stage_of (model_name n) (version mv) (promote_pair n (version mv) (version sv) r)
    = Some Production /\
  stage_of (scaler_name n) (version sv) (promote_pair n (version mv) (version sv) r)
    = Some Production.
Proof.
  intros Hm Hs. unfold promote_pair. split.
  - rewrite stage_of_promote_ne by (apply not_eq_sym, model_name_not_scaler_name).
    now apply (stage_of_promote _ _ _ Staging).
  - apply (stage_of_promote _ _ _ Staging).
    unfold newest, promote.
    rewrite lookup_insert_ne by apply model_name_not_scaler_name. exact Hs.
Qed.

End CycleFacts.

(** ** The promotion decision *)
Section PromotionProperties.
Context {R : Repo}.
Import Registry.

(** C1.  When a production model and a production scaler exist, a promotion
    cycle moves the newest staging model and scaler to production if and
    only if the candidate's test MSE is strictly lower than the production
    model's MSE on the same test set: the two registry writes of the
    promotion happen exactly then, and exactly then the two versions are in
    production afterwards. *)
Theorem promotion_iff_strictly_lower_mse (n : Z) (w : world) (c : Candidate) (b : Baseline) :
  candidate_evaluated n w c -> baseline_evaluated n w c b ->
  exists w',
    PredictModel.predict_model_pipeline n w = (w', Ok tt) /\
    (writes w' =
       writes w ++ promotion_writes n (version (c_mv c)) (version (c_sv c)) (registry w)
     <-> (c_mse c <? b_mse b)%float = true) /\
    (stage_of (model_name n) (version (c_mv c)) (registry w') = Some Production /\
     stage_of (scaler_name n) (version (c_sv c)) (registry w') = Some Production
     <-> (c_mse c <? b_mse b)%float = true).
Proof.
  intros Hc Hb. rewrite (cycle_baseline n w c b Hc Hb).
  destruct Hc as [_ _ Hmv Hsv _ _ _ _ _ _].
  destruct (c_mse c <? b_mse b)%float; eexists; (split; [reflexivity|]); cbn; split.
  - split; reflexivity.
  - split; [reflexivity|]. intros _. now apply stage_of_promote_pair.
  - split; [|discriminate]. intros H. apply app_inv_head in H. discriminate.
  - split; [|discriminate]. intros [H _].
    rewrite (stage_of_newest _ _ _ _ Hmv) in H. discriminate.
Qed.

(** Not strictly lower, for floats: equal or higher. *)
Lemma SFcompare_antisym (x y : spec_float) :
  SFcompare y x = option_map CompOpp (SFcompare x y).
Proof.
  destruct x as [sx|sx| |sx mx ex], y as [sy|sy| |sy my ey]; simpl; try reflexivity;
    try (destruct sx; reflexivity); try (destruct sy; reflexivity);
    try (destruct sx, sy; reflexivity).
  destruct sx, sy; simpl; try reflexivity;
    rewrite (Z.compare_antisym ey ex); destruct (ey ?= ex)%Z eqn:E; simpl; try reflexivity;
    change (PosDef.Pos.compare_cont Eq mx my) with (Pos.compare_cont Eq mx my);
    rewrite (Pos.compare_cont_antisym mx my Eq); simpl; try reflexivity.
Qed.

Lemma equal_or_higher_not_lower (a b : float) :
  (a =? b)%float = true \/ (b <? a)%float = true -> (a <? b)%float = false.
Proof.
  rewrite FloatAxioms.eqb_spec, !FloatAxioms.ltb_spec. unfold SFeqb, SFltb.
  rewrite (SFcompare_antisym (Prim2SF a) (Prim2SF b)).
  destruct (SFcompare (Prim2SF a) (Prim2SF b)) as [[]|]; simpl; intros [H|H]; congruence.
Qed.

(** C4.  When a production model and scaler exist and the candidate's test
    MSE is equal to or higher than the production model's, the cycle writes
    nothing to the registry: no stage transition happens, and every version
    of every registered model, the production versions and the candidate's
    staging versions among them, keeps its stage. *)
Theorem no_transition_when_not_lower (n : Z) (w : world) (c : Candidate) (b : Baseline) :
  candidate_evaluated n w c -> baseline_evaluated n w c b ->
  (c_mse c =? b_mse b)%float = true \/ (b_mse b <? c_mse c)%float = true ->
  exists w',
    PredictModel.predict_model_pipeline n w = (w', Ok tt) /\
    writes w' = writes w /\
    registry w' = registry w /\
    (forall name v, stage_of name v (registry w') = stage_of name v (registry w)) /\
    stage_of (model_name n) (version (c_mv c)) (registry w') = Some Staging /\
    stage_of (scaler_name n) (version (c_sv c)) (registry w') = Some Staging.
Proof.
  intros Hc Hb Hge. rewrite (cycle_baseline n w c b Hc Hb).
  rewrite (equal_or_higher_not_lower _ _ Hge).
  destruct Hc as [_ _ Hmv Hsv _ _ _ _ _ _].
  eexists. split; [reflexivity|]. cbn. rewrite app_nil_r.
  repeat split; try reflexivity; now apply stage_of_newest.
Qed.

(** C2.  In a cold start, when the look-up of the production model or of the
    production scaler finds nothing, one cycle moves the newest staging
    versions of both the model and the scaler to production, whatever the
    candidate's metrics are, and evaluates no baseline: after the
    candidate's own metrics the only call left is the report. *)
Theorem cold_start_promotes (n : Z) (w : world) (c : Candidate) :
  candidate_evaluated n w c -> no_baseline n w ->
  exists w',
    PredictModel.predict_model_pipeline n w = (w', Ok tt) /\
    writes w' =
      writes w ++ promotion_writes n (version (c_mv c)) (version (c_sv c)) (registry w) /\
    registry w' = promote_pair n (version (c_mv c)) (version (c_sv c)) (registry w) /\
    stage_of (model_name n) (version (c_mv c)) (registry w') = Some Production /\
    stage_of (scaler_name n) (version (c_sv c)) (registry w') = Some Production /\
    calls w' = calls w ++ candidate_calls n c ++ [report_call n c].
Proof.
  intros Hc Hn. rewrite (cycle_cold_start n w c Hc Hn).
  destruct Hc as [_ _ Hmv Hsv _ _ _ _ _ _].
  eexists. split; [reflexivity|]. cbn.
  repeat split; try reflexivity; now apply stage_of_promote_pair.
Qed.

(** C9.  With a production pair in place, the cycle calls
    [prepare_model_data] once, with the staging scaler; the production model
    predicts on the [X_test] that call returned, and the production scaler
    is used only in the evaluation of the production model's predictions. *)
Theorem production_model_fed_candidate_scaled_inputs (n : Z) (w : world) (c : Candidate)
    (b : Baseline) :
  candidate_evaluated n w c -> baseline_evaluated n w c b ->
  snd (PredictModel.get_latest_scaler_version n w) = Ok (c_scaler c) /\
  snd (PredictModel.get_production_scaler n w) = Ok (Some (b_scaler b)) /\
  prepare_model_data (c_dataset c) (c_scaler c) (c_train c) (c_test c) =
    Ok (c_fitted c, (c_X_train c, c_y_train c, c_X_test c, c_y_test c)) /\
  calls (fst (PredictModel.predict_model_pipeline n w)) =
    calls w ++
    [CallLoadDataset (str n) "test";
     CallSplit (str n);
     CallPrepare (c_dataset c) (c_scaler c) (c_train c) (c_test c);
     CallPredict (c_model c) (c_X_test c);
     CallEvaluate (c_y_test c) (c_y_pred c) (c_dataset c) (c_fitted c);
     LogMetric "MSE_test" (c_mse c);
     LogMetric "MAE_test" (c_mae c);
     LogMetric "EVS_test" (c_evs c);
     CallPredict (b_model b) (c_X_test c);
     CallEvaluate (c_y_test c) (b_y_pred b) (c_dataset c) (b_scaler b);
     report_call n c].
Proof.
  intros Hc Hb. rewrite (cycle_baseline n w c b Hc Hb).
  destruct Hc, Hb. repeat split; try assumption.
  now destruct (c_mse c <? b_mse b)%float.
Qed.

End PromotionProperties.

Lemma promotion_iff_strictly_lower_mse_witness :
  candidate_evaluated 2 better_candidate (second_candidate 0.25) /\
  baseline_evaluated 2 better_candidate (second_candidate 0.25) first_baseline /\
  exists w',
    PredictModel.predict_model_pipeline 2 better_candidate = (w', Ok tt) /\
    Registry.stage_of (model_name 2) 4 (registry w') = Some Registry.Production /\
    Registry.stage_of (scaler_name 2) 4 (registry w') = Some Registry.Production.
Proof.
  assert (Hc : candidate_evaluated 2 better_candidate (second_candidate 0.25))
    by (constructor; vm_compute; reflexivity).
  assert (Hb : baseline_evaluated 2 better_candidate (second_candidate 0.25) first_baseline)
    by (constructor; vm_compute; reflexivity).
  split; [exact Hc|]. split; [exact Hb|].
  destruct (promotion_iff_strictly_lower_mse 2 _ _ _ Hc Hb) as (w' & Hrun & _ & Hst).
  exists w'. split; [exact Hrun|]. apply Hst. reflexivity.
Defined.

Lemma no_transition_when_not_lower_witness :
  candidate_evaluated 2 trained_twice (second_candidate 0.5) /\
  baseline_evaluated 2 trained_twice (second_candidate 0.5) first_baseline /\
  exists w',
    PredictModel.predict_model_pipeline 2 trained_twice = (w', Ok tt) /\
    registry w' = registry trained_twice.
Proof.
  assert (Hc : candidate_evaluated 2 trained_twice (second_candidate 0.5))
    by (constructor; vm_compute; reflexivity).
  assert (Hb : baseline_evaluated 2 trained_twice (second_candidate 0.5) first_baseline)
    by (constructor; vm_compute; reflexivity).
  split; [exact Hc|]. split; [exact Hb|].
  destruct (no_transition_when_not_lower 2 _ _ _ Hc Hb) as (w' & Hrun & _ & Hreg & _).
  - left. reflexivity.
  - exists w'. split; [exact Hrun|exact Hreg].
Defined.

Lemma cold_start_promotes_witness :
  candidate_evaluated 2 trained_once first_candidate /\
  no_baseline 2 trained_once /\
  exists w',
    PredictModel.predict_model_pipeline 2 trained_once = (w', Ok tt) /\
    Registry.stage_of (model_name 2) 2 (registry w') = Some Registry.Production /\
    Registry.stage_of (scaler_name 2) 2 (registry w') = Some Registry.Production.
Proof.
  assert (Hc : candidate_evaluated 2 trained_once first_candidate)
    by (constructor; vm_compute; reflexivity).
  assert (Hn : no_baseline 2 trained_once).
  { exists None, None. repeat split; try (vm_compute; reflexivity). now left. }
  split; [exact Hc|]. split; [exact Hn|].
  destruct (cold_start_promotes 2 _ _ Hc Hn) as (w' & Hrun & _ & _ & Hm & Hs & _).
  exists w'. split; [exact Hrun|]. split; [exact Hm|exact Hs].
Defined.

Lemma production_model_fed_candidate_scaled_inputs_witness :
  candidate_evaluated 2 trained_twice (second_candidate 0.5) /\
  baseline_evaluated 2 trained_twice (second_candidate 0.5) first_baseline /\
  In (CallPrepare (R := demo) "2/test" 1%nat tt tt)
    (calls (fst (PredictModel.predict_model_pipeline 2 trained_twice))) /\
  In (CallPredict (R := demo) 0.5%float tt)
    (calls (fst (PredictModel.predict_model_pipeline 2 trained_twice))).
Proof.
  assert (Hc : candidate_evaluated 2 trained_twice (second_candidate 0.5))
    by (constructor; vm_compute; reflexivity).
  assert (Hb : baseline_evaluated 2 trained_twice (second_candidate 0.5) first_baseline)
    by (constructor; vm_compute; reflexivity).
  split; [exact Hc|]. split; [exact Hb|].
  destruct (production_model_fed_candidate_scaled_inputs 2 _ _ _ Hc Hb)
    as (_ & _ & _ & Hcalls).
  rewrite Hcalls. split; apply in_or_app; right; simpl; tauto.
Defined.

(** ** One training cycle *)
Section TrainingFacts.
Context {R : Repo}.
Import Registry.

Lemma log_model_active (a : Artifact) (artifact_path registered_model_name : string)
    (w : world) (run : nat) :
  active_run w = Some run ->
  log_model a artifact_path registered_model_name w =
    (let uri := "runs:/" +:+ str (Z.of_nat run) +:+ "/" +:+ artifact_path in
     (set_registry (register_model registered_model_name uri run (registry w))
        (set_artifact uri a w), Ok (mkModelInfo uri run))).
Proof.
  intros H. unfold log_model, current_run. monad. rewrite H. reflexivity.
Qed.

Lemma create_model_version_registered (name src : string) (run : nat) (w : world)
    (es : list entry) :
  registry w !! name = Some es ->
  client_create_model_version name src run w =
    (set_registry (<[name := es ++ [mkEntry run src NoStage]]> (registry w)) w,
     Ok (model_version_of (S (length es)) (mkEntry run src NoStage))).
Proof.
  intros H. unfold client_create_model_version, create_model_version. monad.
  rewrite H. reflexivity.
Qed.

Lemma transition_registered (name : string) (i : nat) (st : Stage) (w : world)
    (es : list entry) (e : entry) :
  registry w !! name = Some es -> es !! i = Some e ->
  client_transition_model_version_stage name (S i) st w =
    (set_registry (<[name := alter (set_stage st) i es]> (registry w)) w, Ok tt).
Proof.
  intros H Hi. unfold client_transition_model_version_stage,
    transition_model_version_stage. monad.
  rewrite H, Hi. reflexivity.
Qed.

(** Rebuild a world whose fields are known after a setter. *)
Ltac flat :=
  unfold set_registry, set_artifact, set_active_run, add_call;
  cbn [registry artifacts active_run runs_started writes calls
       version run_id source model_uri info_run_id model_version_of
       entry_run_id entry_source entry_stage].

(** Logging an artifact, creating its version and staging it. *)
Lemma save_to_staging {B : Type} (a : Artifact) (artifact_path name : string)
    (k : M world B) (r : Registry.t) (arts : gmap string Artifact) (run rs : nat)
    (ws : list Registry.t) (cs : list call) :
  (model_ ← log_model a artifact_path name;
   mv ← client_create_model_version name (model_uri model_) (info_run_id model_);
   client_transition_model_version_stage name (version mv) Staging;;
   k) (mkWorld r arts (Some run) rs ws cs) =
  k (mkWorld (staged name (artifact_uri run artifact_path) run r)
       (<[artifact_uri run artifact_path := a]> arts) (Some run) rs
       (ws ++ staging_writes name (artifact_uri run artifact_path) run r) cs).
Proof.
  run ltac:(apply log_model_active; reflexivity). cbn zeta. flat.
  unfold register_model. fold (artifact_uri run artifact_path).
  run ltac:(apply create_model_version_registered; apply lookup_insert_eq). flat.
  rewrite insert_insert_eq.
  run ltac:(eapply transition_registered;
            [apply lookup_insert_eq|apply list_lookup_middle; reflexivity]). flat.
  rewrite insert_insert_eq.
  replace (length (default [] (r !! name) ++
                   [mkEntry run (artifact_uri run artifact_path) NoStage]))
    with (length (default [] (r !! name) ++
                  [mkEntry run (artifact_uri run artifact_path) NoStage]) + 0)%nat
    by lia.
  rewrite alter_app_r. cbn [alter list_alter set_stage entry_run_id entry_source].
  unfold staging_writes, staged. rewrite <- !app_assoc. reflexivity.
Qed.

Lemma train_cycle (n : Z) (w : world) (t : Training) :
  training_succeeds n w t ->
  TrainModel.train_model_pipeline n w = (trained n w t, Ok tt).
Proof.
  intros [Hrun Hdata Hsplit Hprep Htrain Hpred].
  unfold TrainModel.train_model_pipeline, log_keras_model, log_sklearn_model.
  fold (model_name n). fold (scaler_name n).
  destruct w as [r arts ar rs ws cs]. simpl in Hrun. subst ar.
  run ltac:(apply start_run_None; reflexivity). flat.
  do 4 (run ltac:(apply helper_Ok; eassumption); flat).
  do 3 (run ltac:(reflexivity); flat).
  run ltac:(apply helper_Ok; eassumption). flat.
  rewrite save_to_staging.
  rewrite save_to_staging.
  unfold end_run. monad. flat.
  unfold trained, training_calls, model_staged. flat.
  rewrite <- !app_assoc. reflexivity.
Qed.

Lemma scaler_name_suffix (n : Z) : scaler_name n = model_name n +:+ "_scaler".
Proof. reflexivity. Qed.

Lemma latest_from_app (v : nat) (st : Stage) (l1 l2 : list entry) :
  latest_from v st (l1 ++ l2) =
    match latest_from (v + length l1) st l2 with
    | Some mv => Some mv
    | None => latest_from v st l1
    end.
Proof.
  revert v. induction l1 as [|e l1 IH]; intros v; simpl.
  - rewrite Nat.add_0_r. now destruct (latest_from v st l2).
  - rewrite IH. replace (S v + length l1)%nat with (v + S (length l1))%nat by lia.
    now destruct (latest_from (v + S (length l1)) st l2).
Qed.

Lemma newest_staged (name uri : string) (run : nat) (r : Registry.t) :
  newest name Staging (staged name uri run r) =
    Some (mkModelVersion (length (default [] (r !! name)) + 2) run uri Staging).
Proof.
  unfold newest, staged. rewrite lookup_insert_eq. cbn [mbind option_bind].
  unfold latest_in_stage. rewrite latest_from_app. cbn.
  rewrite decide_True by reflexivity. unfold model_version_of. cbn.
  do 2 f_equal. lia.
Qed.

Lemma no_new_production_refl (r : Registry.t) : no_new_production r r.
Proof. now intros name v H. Qed.

Lemma no_new_production_trans (r1 r2 r3 : Registry.t) :
  no_new_production r1 r2 -> no_new_production r2 r3 -> no_new_production r1 r3.
Proof. intros H12 H23 name v H. apply H12, H23, H. Qed.

Lemma no_new_production_append (name : string) (new : list entry) (r : Registry.t) :
  Forall (fun e => entry_stage e <> Production) new ->
  no_new_production r (<[name := default [] (r !! name) ++ new]> r).
Proof.
  intros Hnew name' [|i]; [discriminate|]. unfold stage_of.
  destruct (decide (name = name')) as [<-|Hne].
  - rewrite lookup_insert_eq. cbn [mbind option_bind].
    destruct (decide (i < length (default [] (r !! name)))%nat) as [Hlt|Hge].
    + rewrite lookup_app_l by exact Hlt.
      destruct (r !! name) as [es|]; [trivial|]. simpl in Hlt. lia.
    + rewrite lookup_app_r by lia.
      destruct (new !! (i - length (default [] (r !! name)))%nat) as [e|] eqn:E;
        [|discriminate].
      cbn. intros [= H]. exfalso.
      rewrite Forall_lookup in Hnew. exact (Hnew _ _ E H).
  - now rewrite lookup_insert_ne.
Qed.

Lemma no_new_production_staging_writes (name uri : string) (run : nat) (r r' : Registry.t) :
  In r' (staging_writes name uri run r) -> no_new_production r r'.
Proof.
  unfold staging_writes, staged. simpl.
  intros [<-|[<-|[<-|[]]]]; apply no_new_production_append;
    repeat constructor; discriminate.
Qed.

Lemma artifact_uri_inj (run : nat) (p1 p2 : string) :
  artifact_uri run p1 = artifact_uri run p2 -> p1 = p2.
Proof.
  unfold artifact_uri. intros H. now do 3 apply String.app_inj in H.
Qed.

(** C7.  One training cycle adds to the station's registered model and to
    its scaler, registered under the model's name followed by "_scaler", the
    versions of this run, the newest of each in staging and holding the
    trained model and the fitted scaler; and no registry it writes on the
    way has a version in production that was not there before. *)
Theorem training_stages_model_and_scaler (n : Z) (w : world) (t : Training) :
  training_succeeds n w t ->
  exists w',
    TrainModel.train_model_pipeline n w = (w', Ok tt) /\
    let run := S (runs_started w) in
    let model_uri := artifact_uri run ("models/station_" +:+ str n) in
    let scaler_uri := artifact_uri run ("scalers/station_" +:+ str n) in
    let old_models := default [] (registry w !! model_name n) in
    let old_scalers := default [] (registry w !! (model_name n +:+ "_scaler")) in
    registry w' !! model_name n =
      Some (old_models ++ [mkEntry run model_uri NoStage; mkEntry run model_uri Staging]) /\
    registry w' !! (model_name n +:+ "_scaler") =
      Some (old_scalers ++
            [mkEntry run scaler_uri NoStage; mkEntry run scaler_uri Staging]) /\
    newest (model_name n) Staging (registry w') =
      Some (mkModelVersion (length old_models + 2) run model_uri Staging) /\
    newest (model_name n +:+ "_scaler") Staging (registry w') =
      Some (mkModelVersion (length old_scalers + 2) run scaler_uri Staging) /\
    artifacts w' !! model_uri = Some (KerasModel (t_model t)) /\
    artifacts w' !! scaler_uri = Some (SklearnModel (t_scaler t)) /\
    (forall r', In r' (drop (length (writes w)) (writes w')) ->
                no_new_production (registry w) r').
Proof.
  intros Ht. rewrite (train_cycle n w t Ht). eexists. split; [reflexivity|].
  rewrite <- scaler_name_suffix.
  assert (Hne := model_name_not_scaler_name n).
  assert (Hs : model_staged n (S (runs_started w)) (registry w) !! scaler_name n =
               registry w !! scaler_name n).
  { unfold model_staged, staged. now rewrite lookup_insert_ne. }
  cbn zeta. unfold trained. proj. repeat split.
  - unfold staged at 1. rewrite lookup_insert_ne by congruence.
    unfold model_staged, staged. now rewrite lookup_insert_eq.
  - unfold staged at 1. rewrite lookup_insert_eq. now rewrite Hs.
  - unfold newest, staged at 1. rewrite lookup_insert_ne by congruence.
    apply newest_staged.
  - rewrite newest_staged. now rewrite Hs.
  - rewrite lookup_insert_ne; [apply lookup_insert_eq|].
    intros H. apply artifact_uri_inj in H. discriminate.
  - apply lookup_insert_eq.
  - intros r'. rewrite drop_app_length. intros H. apply in_app_or in H as [H|H].
    + exact (no_new_production_staging_writes _ _ _ _ _ H).
    + apply (no_new_production_trans _ (model_staged n (S (runs_started w)) (registry w))).
      * eapply (no_new_production_staging_writes (model_name n)).
        unfold staging_writes, model_staged. simpl. right. right. left. reflexivity.
      * exact (no_new_production_staging_writes _ _ _ _ _ H).
Qed.

End TrainingFacts.

Lemma training_stages_model_and_scaler_witness :
  training_succeeds 2 (fresh (R := demo)) demo_training /\
  exists w',
    TrainModel.train_model_pipeline 2 (fresh (R := demo)) = (w', Ok tt) /\
    registry w' !! "mbajk_station_2" =
      Some [Registry.mkEntry 1 "runs:/1/models/station_2" Registry.NoStage;
            Registry.mkEntry 1 "runs:/1/models/station_2" Registry.Staging] /\
    registry w' !! "mbajk_station_2_scaler" =
      Some [Registry.mkEntry 1 "runs:/1/scalers/station_2" Registry.NoStage;
            Registry.mkEntry 1 "runs:/1/scalers/station_2" Registry.Staging].
Proof.
  assert (Ht : training_succeeds 2 (fresh (R := demo)) demo_training)
    by (constructor; vm_compute; reflexivity).
  split; [exact Ht|].
  destruct (training_stages_model_and_scaler 2 _ _ Ht) as (w' & Hrun & Hm & Hs & _).
  exists w'. split; [exact Hrun|]. split; [exact Hm|exact Hs].
Defined.

(** ** The batch loops *)
Section LoopFacts.
Context {S A : Type}.

Lemma for_each_app (xs ys : list A) (body : A -> M S unit) (s : S) :
  for_each (xs ++ ys) body s =
    match for_each xs body s with
    | (s', Ok _) => for_each ys body s'
    | (s', Raise e) => (s', Raise e)
    end.
Proof.
  revert s. induction xs as [|x xs IH]; intros s; simpl; [reflexivity|].
  unfold bind. destruct (body x s) as [s' [[]|e]]; [apply IH|reflexivity].
Qed.

Lemma for_each_raise (xs ys : list A) (x : A) (body : A -> M S unit) (s s1 s2 : S)
    (e : exn) :
  for_each xs body s = (s1, Ok tt) -> body x s1 = (s2, Raise e) ->
  for_each (xs ++ x :: ys) body s = (s2, Raise e).
Proof.
  intros Hxs Hx. rewrite for_each_app, Hxs. simpl. unfold bind. now rewrite Hx.
Qed.

End LoopFacts.

(** C5, as the code has it.  Neither loop catches anything: when the cycle
    of one station raises, after the stations before it went through, the
    exception leaves the loop, which ends in the world that cycle left
    behind; no cycle of a later station runs. *)
Theorem failure_leaves_batch_loop {R : Repo} (before after : list Z) (n : Z)
    (w w1 w2 : world) (e : exn) :
  (PredictModel.main before w = (w1, Ok tt) ->
   PredictModel.predict_model_pipeline n w1 = (w2, Raise e) ->
   PredictModel.main (before ++ n :: after) w = (w2, Raise e)) /\
  (TrainModel.main before w = (w1, Ok tt) ->
   TrainModel.train_model_pipeline n w1 = (w2, Raise e) ->
   TrainModel.main (before ++ n :: after) w = (w2, Raise e)).
Proof. split; apply for_each_raise. Qed.

Lemma failure_leaves_batch_loop_witness :
  PredictModel.main [] trained_once = (trained_once, Ok tt) /\
  snd (PredictModel.predict_model_pipeline 1 trained_once) = Raise (OtherError "no data") /\
  PredictModel.main ([] ++ 1 :: [2])%Z trained_once =
    (fst (PredictModel.predict_model_pipeline 1 trained_once),
     Raise (OtherError "no data")).
Proof.
  assert (H1 : PredictModel.main [] trained_once = (trained_once, Ok tt)) by reflexivity.
  assert (H2 : snd (PredictModel.predict_model_pipeline 1 trained_once) =
               Raise (OtherError "no data")) by (vm_compute; reflexivity).
  split; [exact H1|]. split; [exact H2|].
  apply (proj1 (failure_leaves_batch_loop (R := demo) [] [2%Z] 1%Z
                  trained_once trained_once _ (OtherError "no data")));
    [exact H1|].
  rewrite <- H2. apply surjective_pairing.
Defined.

(** C5 as stated fails: with station 1 failing for want of data,
    both loops stop there, and station 2, next in line, gets no cycle at
    all, although its cycle on its own goes through. *)
Lemma failure_halts_batch_loop :
  snd (PredictModel.main [1; 2]%Z trained_once) = Raise (OtherError "no data") /\
  calls (fst (PredictModel.main [1; 2]%Z trained_once)) =
    calls trained_once ++ [CallLoadDataset (R := demo) "1" "test"] /\
  registry (fst (PredictModel.main [1; 2]%Z trained_once)) = registry trained_once /\
  snd (PredictModel.main [2]%Z trained_once) = Ok tt /\
  snd (TrainModel.main [1; 2]%Z (fresh (R := demo))) = Raise (OtherError "no data") /\
  calls (fst (TrainModel.main [1; 2]%Z (fresh (R := demo)))) =
    [CallLoadDataset (R := demo) "1" "train"] /\
  registry (fst (TrainModel.main [1; 2]%Z (fresh (R := demo)))) = ∅ /\
  snd (TrainModel.main [2]%Z (fresh (R := demo))) = Ok tt.
Proof. do 7 (split; [vm_compute; reflexivity|]). vm_compute. reflexivity. Qed.

(** ** The serving route *)
Section RouteProperties.
Context {S : Prediction.Services}.
Import Prediction.

(** Once both parameters are in range, the route goes on to its first
    service call. *)
Lemma route_validated (station_number n_future : Z) (cs : list service_call) :
  (1 <= n_future <= 7)%Z -> (0 <= station_number <= 29)%Z ->
  exists rest,
    fst (predict_multiple station_number n_future cs) =
      cs ++ GetHistory station_number :: rest.
Proof.
  intros Hn Hs. unfold predict_multiple, raise_if, service. monad.
  destruct (Z.ltb_spec n_future 1); [lia|].
  destruct (Z.gtb_spec n_future 7); [lia|].
  destruct (Z.ltb_spec station_number 0); [lia|].
  destruct (Z.gtb_spec station_number 29); [lia|]. cbn [orb].
  destruct (get_bike_station_history_data station_number) as [data|e];
    [|exists []; reflexivity].
  destruct (MLService _ _) as [ml|e]; [|eexists; cbn; rewrite <- app_assoc; reflexivity].
  destruct (ml_predict_multiple ml data n_future) as [ps|e];
    [|eexists; cbn; rewrite <- !app_assoc; reflexivity].
  destruct (save station_number n_future ps) as [[]|e];
    eexists; cbn; rewrite <- !app_assoc; reflexivity.
Qed.

(** C6.  A horizon below 1 and a horizon above 7 are each refused with a
    400 before any service is called, and a horizon from 1 to 7 with a valid
    station passes validation: the route goes on to fetch the history. *)
Theorem horizon_accepted_from_1_to_7 (station_number n_future : Z)
    (cs : list service_call) :
  ((n_future < 1)%Z ->
   predict_multiple station_number n_future cs =
     (cs, Raise (HTTPException 400 "n_future must be greater than 0"))) /\
  ((7 < n_future)%Z ->
   predict_multiple station_number n_future cs =
     (cs, Raise (HTTPException 400 "n_future must be less than 8"))) /\
  ((1 <= n_future <= 7)%Z -> (0 <= station_number <= 29)%Z ->
   exists rest,
     fst (predict_multiple station_number n_future cs) =
       cs ++ GetHistory station_number :: rest).
Proof.
  split; [|split].
  - intros H. unfold predict_multiple, raise_if. monad.
    destruct (Z.ltb_spec n_future 1); [reflexivity|lia].
  - intros H. unfold predict_multiple, raise_if. monad.
    destruct (Z.ltb_spec n_future 1); [lia|].
    destruct (Z.gtb_spec n_future 7); [reflexivity|lia].
  - apply route_validated.
Qed.

(** C10.  With a valid horizon, every station number from 0 to 29 passes
    validation, 29 included, and every other one is refused with a 400 whose
    message speaks of 0 to 28. *)
Theorem station_accepted_from_0_to_29 (station_number n_future : Z)
    (cs : list service_call) :
  (1 <= n_future <= 7)%Z ->
  ((0 <= station_number <= 29)%Z ->
   exists rest,
     fst (predict_multiple station_number n_future cs) =
       cs ++ GetHistory station_number :: rest) /\
  ((station_number < 0 \/ 29 < station_number)%Z ->
   predict_multiple station_number n_future cs =
     (cs, Raise (HTTPException 400 "station_number must be between 0 and 28"))) /\
  (exists rest, fst (predict_multiple 29 n_future cs) = cs ++ GetHistory 29 :: rest).
Proof.
  intros Hn. split; [|split].
  - now apply route_validated.
  - intros Hs. unfold predict_multiple, raise_if. monad.
    destruct (Z.ltb_spec n_future 1); [lia|].
    destruct (Z.gtb_spec n_future 7); [lia|].
    destruct (Z.ltb_spec station_number 0); [reflexivity|].
    destruct (Z.gtb_spec station_number 29); [reflexivity|lia].
  - apply route_validated; [exact Hn|lia].
Qed.

End RouteProperties.

Lemma horizon_accepted_from_1_to_7_witness :
  Prediction.predict_multiple (S := demo_services) 5 0 [] =
    ([], Raise (HTTPException 400 "n_future must be greater than 0")) /\
  Prediction.predict_multiple (S := demo_services) 5 8 [] =
    ([], Raise (HTTPException 400 "n_future must be less than 8")) /\
  exists rest,
    fst (Prediction.predict_multiple (S := demo_services) 5 7 []) =
      [] ++ Prediction.GetHistory 5 :: rest.
Proof.
  split; [|split].
  - apply (proj1 (horizon_accepted_from_1_to_7 (S := demo_services) 5 0 [])). lia.
  - apply (proj1 (proj2 (horizon_accepted_from_1_to_7 (S := demo_services) 5 8 []))). lia.
  - apply (proj2 (proj2 (horizon_accepted_from_1_to_7 (S := demo_services) 5 7 []))); lia.
Defined.

Lemma station_accepted_from_0_to_29_witness :
  (exists rest,
     fst (Prediction.predict_multiple (S := demo_services) 29 3 []) =
       [] ++ Prediction.GetHistory 29 :: rest) /\
  Prediction.predict_multiple (S := demo_services) 30 3 [] =
    ([], Raise (HTTPException 400 "station_number must be between 0 and 28")).
Proof.
  destruct (station_accepted_from_0_to_29 (S := demo_services) 30 3 []) as (_ & Hout & Hin).
  - lia.
  - split; [exact Hin|]. apply Hout. lia.
Defined.

(** ** The multi-step forecaster *)
Section ForecasterProperties.
Variables Obs Scaled FModel FScaler : Type.
Variable transform : FScaler -> list Obs -> list Scaled.
Variable inverse_transform : FScaler -> Scaled -> Obs.
Variable predict_step : FModel -> list Scaled -> Scaled.
Variable look_back : nat.

Let forecast := Forecaster.forecast Obs Scaled FModel FScaler transform inverse_transform
                  predict_step.
Let predict_next := Forecaster.predict_next Obs Scaled FModel FScaler transform
                      inverse_transform predict_step.

Lemma forecast_length (m : FModel) (sc : FScaler) (N : nat) (window : list Obs) :
  length (forecast m sc N window) = N.
Proof.
  revert window. induction N as [|N IH]; intros window; simpl; [reflexivity|].
  f_equal. apply IH.
Qed.

(** The [i]-th point is predicted from the history followed by the points
    before it, slid [i] steps on. *)
Lemma forecast_lookup (m : FModel) (sc : FScaler) (N i : nat) (window : list Obs) :
  window <> [] -> (i < N)%nat ->
  forecast m sc N window !! i =
    Some (predict_next m sc (drop i (window ++ take i (forecast m sc N window)))).
Proof.
  revert i window. induction N as [|N IH]; intros i window Hne Hi; [lia|].
  destruct i as [|i]; simpl.
  - now rewrite app_nil_r.
  - fold forecast. fold predict_next.
    rewrite IH; [|unfold Forecaster.slide; now destruct (drop 1 window)|lia].
    do 2 f_equal. unfold Forecaster.slide.
    destruct window as [|o window]; [contradiction|].
    simpl. rewrite drop_0. now rewrite <- app_assoc.
Qed.

(** The most recent entries of such a window are prior outputs. *)
Lemma window_ends_in_outputs (data out : list Obs) (i : nat) :
  (i <= length out)%nat ->
  let window := drop i (data ++ take i out) in
  length window = length data /\
  drop (length data - min i (length data)) window = drop (i - min i (length data)) (take i out).
Proof.
  intros Hi window. subst window.
  assert (Hlen : length (take i out) = i) by (rewrite length_take; lia).
  split.
  - rewrite length_drop, length_app, Hlen. lia.
  - rewrite drop_drop.
    replace (i + (length data - i `min` length data))%nat
      with (length data + (i - i `min` length data))%nat by lia.
    now rewrite drop_app_add.
Qed.

Lemma forecaster_returns (m : FModel) (sc : FScaler) (N : Z) (data : list Obs) :
  (1 <= N <= 7)%Z -> (look_back <= length data)%nat ->
  Forecaster.predict_multiple Obs Scaled FModel FScaler transform inverse_transform
    predict_step look_back (Some (m, sc)) data N = Ok (forecast m sc (Z.to_nat N) data).
Proof.
  intros HN Hlb. unfold Forecaster.predict_multiple.
  destruct (Z.ltb_spec N 1); [lia|].
  destruct (Z.gtb_spec N 7); [lia|]. cbn [orb].
  destruct (Nat.ltb_spec (length data) look_back); [lia|reflexivity].
Qed.

(** C8.  For a horizon [N] from 1 to 7, a valid station, a production pair
    that loads and a non-empty history at least as long as the look-back,
    the route returns exactly [N] points; each point is predicted from a
    window as long as the history, and the most recent entries of the
    window of point [i], as many as there are points before it (up to the
    whole window), are those points, not observations. *)
Theorem forecast_has_N_points_fed_back
    (history : Z -> result (list Obs))
    (load : string -> string -> result (option (FModel * FScaler)))
    (store : Z -> Z -> list Obs -> result unit)
    (station_number N : Z) (data : list Obs) (m : FModel) (sc : FScaler)
    (cs : list Prediction.service_call) :
  (1 <= N <= 7)%Z -> (0 <= station_number <= 29)%Z ->
  history station_number = Ok data ->
  load (str station_number +:+ "/model") (str station_number +:+ "/minmax") =
    Ok (Some (m, sc)) ->
  data <> [] -> (look_back <= length data)%nat ->
  (forall out, store station_number N out = Ok tt) ->
  exists out,
    snd (Prediction.predict_multiple
           (S := Forecaster.services Obs Scaled FModel FScaler transform inverse_transform
                   predict_step look_back history load store)
           station_number N cs) = Ok out /\
    length out = Z.to_nat N /\
    forall i, (i < Z.to_nat N)%nat ->
      exists window,
        out !! i = Some (predict_next m sc window) /\
        window = drop i (data ++ take i out) /\
        length window = length data /\
        drop (length data - min i (length data)) window =
          drop (i - min i (length data)) (take i out).
Proof.
  intros HN Hst Hhist Hload Hne Hlb Hstore.
  exists (forecast m sc (Z.to_nat N) data).
  split; [|split].
  - unfold Prediction.predict_multiple, Prediction.raise_if, Prediction.service. monad.
    destruct (Z.ltb_spec N 1); [lia|].
    destruct (Z.gtb_spec N 7); [lia|].
    destruct (Z.ltb_spec station_number 0); [lia|].
    destruct (Z.gtb_spec station_number 29); [lia|].
    cbn [orb Prediction.get_bike_station_history_data Prediction.MLService
         Prediction.ml_predict_multiple Prediction.save Forecaster.services].
    rewrite Hhist, Hload.
    rewrite (forecaster_returns m sc N data HN Hlb), Hstore. reflexivity.
  - apply forecast_length.
  - intros i Hi. eexists. split; [now apply forecast_lookup|].
    split; [reflexivity|].
    apply window_ends_in_outputs. rewrite forecast_length. lia.
Qed.

End ForecasterProperties.

Lemma forecast_has_N_points_fed_back_witness :
  exists out,
    snd (Prediction.predict_multiple (S := demo_services) 5 3 []) = Ok out /\
    length out = 3%nat /\
    out = [6; 11; 20]%Z.
Proof.
  destruct (forecast_has_N_points_fed_back Z Z unit unit
              (fun _ window => window) (fun _ p => p)
              (fun _ window => foldr Z.add 0%Z window) 3
              (fun _ => Ok [1; 2; 3]%Z) (fun _ _ => Ok (Some (tt, tt)))
              (fun _ _ _ => Ok tt) 5 3 [1; 2; 3]%Z tt tt [])
    as (out & Hout & Hlen & _); try reflexivity; try lia; try discriminate.
  exists out. split; [exact Hout|]. split; [exact Hlen|].
  assert (H : snd (Prediction.predict_multiple (S := demo_services) 5 3 []) =
              Ok [6; 11; 20]%Z) by (vm_compute; reflexivity).
  unfold demo_services in H. rewrite Hout in H. now injection H.
Defined.

(** ** Registry names of different stations *)

Lemma has_underscore_app (s1 s2 : string) :
  has_underscore (s1 +:+ s2) = has_underscore s1 || has_underscore s2.
Proof.
  induction s1 as [|c s1 IH]; simpl; [reflexivity|].
  now destruct (Ascii.eqb c "_"%char).
Qed.

Lemma has_underscore_uint (d : Decimal.uint) :
  has_underscore (NilEmpty.string_of_uint d) = false.
Proof. induction d; simpl; auto. Qed.

Lemma str_no_underscore (z : Z) : has_underscore (str z) = false.
Proof.
  unfold str, NilZero.string_of_int, NilZero.string_of_uint.
  destruct z as [|p|p]; simpl; [reflexivity| |];
    destruct (Pos.to_uint p) eqn:E; try reflexivity;
    rewrite <- E; apply has_underscore_uint.
Qed.

Lemma append_inj_r (s1 s2 t : string) : s1 +:+ t = s2 +:+ t -> s1 = s2.
Proof.
  intros H.
  assert (Hlen : String.length s1 = String.length s2).
  { apply (f_equal String.length) in H. rewrite !length_append in H. lia. }
  revert s2 H Hlen. induction s1 as [|c s1 IH]; intros [|c2 s2] H Hlen;
    try discriminate; [reflexivity|].
  simpl in H. injection H as -> H. f_equal. apply IH; [exact H|]. simpl in Hlen. lia.
Qed.

(** Two stations either share both registry names or share none. *)
Lemma names_apart (m n : Z) :
  model_name m = model_name n /\ scaler_name m = scaler_name n \/
  model_name m <> model_name n /\ model_name m <> scaler_name n /\
  scaler_name m <> model_name n /\ scaler_name m <> scaler_name n.
Proof.
  destruct (decide (str m = str n)) as [Heq|Hne].
  - left. unfold model_name, scaler_name. now rewrite Heq.
  - right. unfold model_name, scaler_name. repeat split; intros H;
      apply String.app_inj in H.
    + contradiction.
    + apply (f_equal has_underscore) in H.
      rewrite has_underscore_app, !str_no_underscore in H. discriminate.
    + apply (f_equal has_underscore) in H.
      rewrite has_underscore_app, !str_no_underscore in H. discriminate.
    + apply append_inj_r in H. contradiction.
Qed.

(** ** Pairing of a station's model and scaler *)
Section PairingFacts.
Import Registry.

Lemma entries_insert_eq (name : string) (es : list entry) (r : Registry.t) :
  entries name (<[name := es]> r) = es.
Proof. unfold entries. now rewrite lookup_insert_eq. Qed.

Lemma entries_insert_ne (name name' : string) (es : list entry) (r : Registry.t) :
  name <> name' -> entries name' (<[name := es]> r) = entries name' r.
Proof. intros H. unfold entries. now rewrite lookup_insert_ne. Qed.

Lemma fmap_eq_lookup {A B : Type} (f : A -> B) (l1 l2 : list A) (j : nat) (e2 : A) :
  f <$> l1 = f <$> l2 -> l2 !! j = Some e2 ->
  exists e1, l1 !! j = Some e1 /\ f e1 = f e2.
Proof.
  intros H Hj. apply (f_equal (fun l => l !! j)) in H.
  rewrite !list_lookup_fmap, Hj in H. simpl in H.
  destruct (l1 !! j) as [e1|]; [|discriminate]. injection H as H. now exists e1.
Qed.

Lemma paired_ext (n : Z) (b : nat) (r r' : Registry.t) :
  entries (model_name n) r' = entries (model_name n) r ->
  entries (scaler_name n) r' = entries (scaler_name n) r ->
  paired n b r -> paired n b r'.
Proof. intros Hm Hs [H1 H2 H3 H4]. constructor; rewrite ?Hm, ?Hs; assumption. Qed.

Lemma paired_bound_le (n : Z) (b b' : nat) (r : Registry.t) :
  (b <= b')%nat -> paired n b r -> paired n b' r.
Proof.
  intros Hb [H1 H2 H3 H4]. constructor; try assumption.
  intros i e Hi. specialize (H4 i e Hi). lia.
Qed.

Lemma paired_empty (n : Z) (b : nat) : paired n b ∅.
Proof.
  constructor; unfold entries; rewrite ?lookup_empty; simpl; try reflexivity;
    intros; discriminate.
Qed.

Lemma paired_not_split (n : Z) (b : nat) (r : Registry.t) :
  paired n b r -> ~ split_pair n r.
Proof.
  intros [H1 H2 H3 _] (i & j & em & es & Hi & Hj & Hrun & Hst).
  destruct (fmap_eq_lookup _ _ _ _ _ H2 Hj) as (em' & Hj' & Hst').
  destruct (fmap_eq_lookup _ _ _ _ _ H1 Hj) as (em'' & Hj'' & Hrun').
  rewrite Hj' in Hj''. injection Hj'' as <-.
  destruct (decide (i = j)) as [->|Hne].
  - rewrite Hi in Hj'. injection Hj' as <-.
    destruct Hst as [[Ha Hb]|[Ha Hb]]; congruence.
  - destruct (H3 i j em em' Hne Hi Hj' ltac:(congruence)) as [H|H];
      destruct Hst as [[Ha Hb]|[Ha Hb]]; congruence.
Qed.

(** Staging a new run's model and scaler keeps the pairing. *)
Lemma paired_staged (n : Z) (b run : nat) (model_uri scaler_uri : string) (r : Registry.t) :
  paired n b r -> (b < run)%nat ->
  paired n run
    (staged (scaler_name n) scaler_uri run (staged (model_name n) model_uri run r)).
Proof.
  intros [H1 H2 H3 H4] Hb.
  assert (Hne := model_name_not_scaler_name n).
  assert (Hm : entries (model_name n)
                 (staged (scaler_name n) scaler_uri run
                    (staged (model_name n) model_uri run r)) =
               entries (model_name n) r ++
               [mkEntry run model_uri NoStage; mkEntry run model_uri Staging]).
  { unfold staged at 1. rewrite entries_insert_ne by congruence.
    unfold staged. now rewrite entries_insert_eq. }
  assert (Hs : entries (scaler_name n)
                 (staged (scaler_name n) scaler_uri run
                    (staged (model_name n) model_uri run r)) =
               entries (scaler_name n) r ++
               [mkEntry run scaler_uri NoStage; mkEntry run scaler_uri Staging]).
  { unfold staged at 1. rewrite entries_insert_eq. f_equal.
    unfold staged. fold (entries (scaler_name n) (<[model_name n := default [] (r !! model_name n) ++ [mkEntry run model_uri NoStage; mkEntry run model_uri Staging]]> r)).
    now rewrite entries_insert_ne. }
  assert (Hnew : forall k e,
            [mkEntry run model_uri NoStage; mkEntry run model_uri Staging] !! k = Some e ->
            entry_run_id e = run /\ (k = 0%nat -> entry_stage e = NoStage) /\ (k < 2)%nat).
  { intros [|[|k]] e; simpl; intros [= <-]; repeat split; simpl; try lia; congruence. }
  constructor; rewrite ?Hm, ?Hs.
  - rewrite !fmap_app, H1. reflexivity.
  - rewrite !fmap_app, H2. reflexivity.
  - intros i j e1 e2 Hij Hi Hj Hrun.
    apply lookup_app_Some in Hi as [Hi|[Hil Hi]];
      apply lookup_app_Some in Hj as [Hj|[Hjl Hj]].
    + exact (H3 i j e1 e2 Hij Hi Hj Hrun).
    + apply H4 in Hi. apply Hnew in Hj as (Hj & _). lia.
    + apply H4 in Hj. apply Hnew in Hi as (Hi & _). lia.
    + apply Hnew in Hi as (_ & Hi0 & Hi2). apply Hnew in Hj as (_ & Hj0 & Hj2).
      destruct (decide (i - length (entries (model_name n) r) = 0)%nat) as [E|E].
      * left. now apply Hi0.
      * right. apply Hj0. lia.
  - intros i e Hi. apply lookup_app_Some in Hi as [Hi|[_ Hi]].
    + apply H4 in Hi. lia.
    + apply Hnew in Hi as (Hi & _). lia.
Qed.

Lemma newest_entry (name : string) (st : Stage) (r : Registry.t) (mv : ModelVersion) :
  newest name st r = Some mv ->
  exists i e, version mv = S i /\ entries name r !! i = Some e /\ entry_stage e = st /\
    forall j e', (i < j)%nat -> entries name r !! j = Some e' -> entry_stage e' <> st.
Proof.
  unfold newest, entries. destruct (r !! name) as [es|]; simpl; [|discriminate].
  intros H. apply RegistryFacts.latest_in_stage_Some in H as (i & e & Hi & Hst & -> & Hlast).
  now exists i, e.
Qed.

Lemma alter_stage_lookup (st : Stage) (i k : nat) (l : list entry) (e : entry) :
  alter (set_stage st) i l !! k = Some e ->
  exists p, l !! k = Some p /\ entry_run_id e = entry_run_id p /\
    (k <> i -> e = p) /\ (k = i -> entry_stage e = st).
Proof.
  destruct (decide (i = k)) as [->|Hne].
  - rewrite list_lookup_alter_eq. destruct (l !! k) as [p|]; [|discriminate].
    simpl. intros [= <-]. exists p. repeat split; simpl; congruence.
  - rewrite list_lookup_alter_ne by exact Hne. intros H. exists e.
    repeat split; try assumption; congruence.
Qed.

Lemma alter_stage_runs (st : Stage) (i : nat) (l : list entry) :
  entry_run_id <$> alter (set_stage st) i l = entry_run_id <$> l.
Proof.
  revert i. induction l as [|e l IH]; intros [|i]; simpl; try reflexivity.
  f_equal. apply IH.
Qed.

Lemma alter_stage_stages (st : Stage) (i : nat) (l : list entry) :
  entry_stage <$> alter (set_stage st) i l = alter (fun _ => st) i (entry_stage <$> l).
Proof.
  revert i. induction l as [|e l IH]; intros [|i]; simpl; try reflexivity.
  f_equal. apply IH.
Qed.

(** Promoting the newest staging model and scaler keeps the pairing. *)
Lemma paired_promoted (n : Z) (b : nat) (r : Registry.t) (mv sv : ModelVersion) :
  paired n b r ->
  newest (model_name n) Staging r = Some mv ->
  newest (scaler_name n) Staging r = Some sv ->
  paired n b (promote_pair n (version mv) (version sv) r).
Proof.
  intros [H1 H2 H3 H4] Hmv Hsv.
  assert (Hne := model_name_not_scaler_name n).
  apply newest_entry in Hmv as (i & e & -> & Hi & Hst & Hlast).
  apply newest_entry in Hsv as (i' & e' & -> & Hi' & Hst' & Hlast').
  assert (Hii : i' = i).
  { destruct (fmap_eq_lookup _ _ _ _ _ H2 Hi') as (x & Hx & Hxs).
    symmetry in H2.
    destruct (fmap_eq_lookup _ _ _ _ _ H2 Hi) as (y & Hy & Hys).
    destruct (lt_eq_lt_dec i i') as [[Hlt|Heq]|Hgt]; [|congruence|].
    - exfalso. apply (Hlast i' x Hlt Hx). congruence.
    - exfalso. apply (Hlast' i y Hgt Hy). congruence. }
  subst i'.
  assert (Hm : entries (model_name n) (promote_pair n (S i) (S i) r) =
               alter (set_stage Production) i (entries (model_name n) r)).
  { unfold promote_pair. unfold promote at 1. rewrite entries_insert_ne by congruence.
    unfold promote. now rewrite entries_insert_eq. }
  assert (Hs : entries (scaler_name n) (promote_pair n (S i) (S i) r) =
               alter (set_stage Production) i (entries (scaler_name n) r)).
  { unfold promote_pair. unfold promote at 1. rewrite entries_insert_eq. simpl. f_equal.
    unfold promote.
    fold (entries (scaler_name n)
            (<[model_name n := alter (set_stage Production) (Init.Nat.pred (S i))
                                 (default [] (r !! model_name n))]> r)).
    now rewrite entries_insert_ne. }
  constructor; rewrite ?Hm, ?Hs.
  - now rewrite !alter_stage_runs.
  - now rewrite !alter_stage_stages, H2.
  - intros i1 j1 e1 e2 Hij Hl1 Hl2 Hrun.
    apply alter_stage_lookup in Hl1 as (p1 & Hp1 & Hr1 & Hsame1 & _).
    apply alter_stage_lookup in Hl2 as (p2 & Hp2 & Hr2 & Hsame2 & _).
    destruct (H3 i1 j1 p1 p2 Hij Hp1 Hp2 ltac:(congruence)) as [Hn|Hn].
    + left. rewrite Hsame1; [exact Hn|]. intros ->. congruence.
    + right. rewrite Hsame2; [exact Hn|]. intros ->. congruence.
  - intros k x Hk. apply alter_stage_lookup in Hk as (p & Hp & Hr & _).
    rewrite Hr. exact (H4 k p Hp).
Qed.

End PairingFacts.

(** ** Worlds between cycles *)

(** A helper call in hypothesis [H] returned: name what, or [H] is absurd. *)
Tactic Notation "helper_returned" hyp(H) constr(r) "as" simple_intropattern(pat) :=
  destruct r as [pat|?e] eqn:?;
  [erewrite bind_Ok in H by (apply helper_Ok; reflexivity); cbv beta iota in H
  |erewrite bind_Raise in H by (apply helper_Raise; reflexivity); discriminate].

(** A look-up in hypothesis [H], which only reads the store of [w],
    returned: name what, or [H] is absurd. *)
Tactic Notation "lookup_returned" hyp(H) constr(w) constr(f) constr(reads)
    "as" simple_intropattern(pat) :=
  destruct (snd (f w)) as [pat|?e] eqn:?;
  [erewrite bind_Ok in H
     by (eapply (at_store _ w); [apply reads|split; reflexivity|eassumption]);
   cbv beta iota in H
  |erewrite bind_Raise in H
     by (eapply (at_store _ w); [apply reads|split; reflexivity|eassumption]);
   discriminate].

Section ReachableFacts.
Context {R : Repo}.
Import Registry.

Lemma start_run_Some (run_name : string) (w : world) (run : nat) :
  active_run w = Some run ->
  start_run run_name w = (w, Raise (OtherError "a run is already active")).
Proof. intros H. unfold start_run. monad. now rewrite H. Qed.

(** A training cycle that went through got what it needed from the helpers. *)
Lemma train_returned (n : Z) (w w' : world) :
  TrainModel.train_model_pipeline n w = (w', Ok tt) ->
  exists t, training_succeeds n w t.
Proof.
  unfold TrainModel.train_model_pipeline. intros H.
  destruct (active_run w) as [run|] eqn:Hrun.
  { erewrite bind_Raise in H by (eapply start_run_Some; eassumption). discriminate. }
  erewrite bind_Ok in H by (apply start_run_None; assumption). cbv beta iota in H.
  helper_returned H (load_bike_station_dataset (str n) "train") as dataset.
  helper_returned H (create_test_train_split (str n)) as [train_data test_data].
  helper_returned H (prepare_model_data dataset MinMaxScaler train_data test_data)
    as [scaler [[[X_train y_train] X_test] y_test]].
  helper_returned H (train_model X_train y_train X_test y_test 10 32 0) as model.
  do 3 (erewrite bind_Ok in H by reflexivity; cbv beta iota in H).
  helper_returned H (predict model X_test) as y_pred.
  exists (mkTraining R dataset train_data test_data scaler X_train y_train X_test y_test
            model y_pred).
  constructor; assumption.
Qed.

(** A promotion cycle that went through evaluated its candidate, and either
    found no baseline or evaluated the one it found. *)
Lemma promote_returned (n : Z) (w w' : world) :
  PredictModel.predict_model_pipeline n w = (w', Ok tt) ->
  exists c, candidate_evaluated n w c /\
            (no_baseline n w \/ exists b, baseline_evaluated n w c b).
Proof.
  unfold PredictModel.predict_model_pipeline. intros H.
  destruct (active_run w) as [run|] eqn:Hrun.
  { erewrite bind_Raise in H by (eapply start_run_Some; eassumption). discriminate. }
  erewrite bind_Ok in H by (apply start_run_None; assumption). cbv beta iota in H.
  helper_returned H (load_bike_station_dataset (str n) "test") as dataset.
  lookup_returned H w (PredictModel.get_production_model n) get_production_model_reads
    as production_model.
  lookup_returned H w (PredictModel.get_production_scaler n) get_production_scaler_reads
    as production_scaler.
  lookup_returned H w (PredictModel.get_latest_model_version n)
    get_latest_model_version_reads as model.
  lookup_returned H w (PredictModel.get_latest_scaler_version n)
    get_latest_scaler_version_reads as scaler.
  helper_returned H (create_test_train_split (str n)) as [train_data test_data].
  helper_returned H (prepare_model_data dataset scaler train_data test_data)
    as [fitted [[[X_train y_train] X_test] y_test]].
  helper_returned H (predict model X_test) as y_pred.
  helper_returned H (evaluate_model_performance y_test y_pred dataset fitted)
    as [[mse mae] evs].
  do 3 (erewrite bind_Ok in H by reflexivity; cbv beta iota in H).
  match goal with
  | Hm : snd (PredictModel.get_latest_model_version n w) = Ok model |- _ =>
      destruct (get_latest_model_version_Ok n w model Hm) as (ems & mv & Hems & Hmv)
  end.
  match goal with
  | Hs : snd (PredictModel.get_latest_scaler_version n w) = Ok scaler |- _ =>
      destruct (get_latest_scaler_version_Ok n w scaler Hs) as (ess & sv & Hess & Hsv)
  end.
  exists (mkCandidate R dataset mv sv model scaler train_data test_data fitted
            X_train y_train X_test y_test y_pred mse mae evs).
  split.
  { constructor; simpl; try assumption; unfold newest.
    - now rewrite Hems.
    - now rewrite Hess. }
  destruct production_model as [pm|]; [|left; eexists _, _; eauto].
  destruct production_scaler as [ps|]; [|left; eexists _, _; eauto].
  right.
  destruct (predict pm X_test) as [y_prod|e] eqn:Hpp.
  2: { erewrite bind_Raise in H
         by (erewrite bind_Raise by (apply helper_Raise; reflexivity); reflexivity).
       discriminate. }
  destruct (evaluate_model_performance y_test y_prod dataset ps)
    as [[[mse_production mae_production] evs_production]|e] eqn:Hpe.
  2: { erewrite bind_Raise in H
         by (erewrite bind_Ok by (apply helper_Ok; reflexivity); cbv beta iota;
             erewrite bind_Raise by (apply helper_Raise; eassumption); reflexivity).
       discriminate. }
  exists (mkBaseline R pm ps y_prod mse_production mae_production evs_production).
  constructor; simpl; assumption.
Qed.

(** Staging or promoting for one station keeps every station paired. *)
Lemma paired_staged_any (m n : Z) (b run : nat) (model_uri scaler_uri : string)
    (r : Registry.t) :
  paired n b r -> (b < run)%nat ->
  paired n run
    (staged (scaler_name m) scaler_uri run (staged (model_name m) model_uri run r)).
Proof.
  intros Hp Hb. destruct (names_apart m n) as [[-> ->]|(H1 & H2 & H3 & H4)].
  - now apply (paired_staged n b).
  - apply (paired_bound_le n b); [lia|]. revert Hp. apply paired_ext; unfold staged.
    + now rewrite !entries_insert_ne.
    + now rewrite !entries_insert_ne.
Qed.

Lemma paired_promoted_any (m n : Z) (b : nat) (r : Registry.t) (mv sv : ModelVersion) :
  paired n b r ->
  newest (model_name m) Staging r = Some mv ->
  newest (scaler_name m) Staging r = Some sv ->
  paired n b (promote_pair m (version mv) (version sv) r).
Proof.
  intros Hp Hmv Hsv. destruct (names_apart m n) as [[Hm Hs]|(H1 & H2 & H3 & H4)].
  - unfold promote_pair. rewrite Hm, Hs in *. now apply paired_promoted.
  - revert Hp. apply paired_ext; unfold promote_pair, promote.
    + now rewrite !entries_insert_ne.
    + now rewrite !entries_insert_ne.
Qed.

Lemma reachable_paired (w : world) :
  reachable w -> forall n, paired n (runs_started w) (registry w).
Proof.
  induction 1 as [|m w w' Hw IH Hrun|m w w' Hw IH Hrun]; intros n.
  - apply paired_empty.
  - destruct (train_returned m w w' Hrun) as (t & Ht).
    rewrite (train_cycle m w t Ht) in Hrun. injection Hrun as <-.
    unfold trained, model_staged. proj. apply (paired_staged_any m n (runs_started w)).
    + apply IH.
    + lia.
  - destruct (promote_returned m w w' Hrun) as (c & Hc & [Hcold|(b & Hb)]).
    + rewrite (cycle_cold_start m w c Hc Hcold) in Hrun. injection Hrun as <-.
      unfold finished. proj. apply (paired_bound_le n (runs_started w)); [lia|].
      destruct Hc. now apply paired_promoted_any.
    + rewrite (cycle_baseline m w c b Hc Hb) in Hrun.
      destruct (c_mse c <? b_mse b)%float; injection Hrun as <-;
        unfold finished; proj; (apply (paired_bound_le n (runs_started w)); [lia|]).
      * destruct Hc. now apply paired_promoted_any.
      * apply IH.
Qed.

(** C3, as the code has it.  Between cycles, that is in every world that
    training and promotion cycles which went through have made of a fresh
    tracking server, no station is split: the versions of its model and of
    its scaler carry the same runs and the same stages, version by version. *)
Theorem model_and_scaler_paired_between_cycles (w : world) (n : Z) :
  reachable w ->
  ~ split_pair n (registry w) /\
  entry_run_id <$> entries (model_name n) (registry w) =
    entry_run_id <$> entries (scaler_name n) (registry w) /\
  entry_stage <$> entries (model_name n) (registry w) =
    entry_stage <$> entries (scaler_name n) (registry w).
Proof.
  intros Hw. assert (Hp := reachable_paired w Hw n). split.
  - exact (paired_not_split n _ _ Hp).
  - destruct Hp. now split.
Qed.

End ReachableFacts.

Lemma trained_once_reachable : reachable trained_once.
Proof.
  apply (reachable_train 2 fresh); [apply reachable_fresh|].
  vm_compute. reflexivity.
Defined.

Lemma model_and_scaler_paired_between_cycles_witness :
  reachable promoted_once /\ ~ split_pair 2 (registry promoted_once).
Proof.
  assert (H : reachable promoted_once).
  { apply (reachable_promote 2 trained_once); [exact trained_once_reachable|].
    vm_compute. reflexivity. }
  split; [exact H|].
  exact (proj1 (model_and_scaler_paired_between_cycles promoted_once 2 H)).
Defined.

(** C3 as stated fails: the promotion moves the model and the
    scaler in two registry writes, and the registry after the first, here in
    the cold start of station 2, has version 2 of the model in production
    and version 2 of the scaler, of the same run, still in staging. *)
Lemma promotion_writes_split_pair :
  reachable trained_once /\
  snd (PredictModel.update_production_model 2 trained_once) = Ok tt /\
  writes (fst (PredictModel.update_production_model 2 trained_once)) =
    writes trained_once ++
    [promote (model_name 2) 2 (registry trained_once);
     promote_pair 2 2 2 (registry trained_once)] /\
  Registry.stage_of "mbajk_station_2" 2 (promote (model_name 2) 2 (registry trained_once)) =
    Some Registry.Production /\
  Registry.stage_of "mbajk_station_2_scaler" 2
    (promote (model_name 2) 2 (registry trained_once)) = Some Registry.Staging /\
  split_pair 2 (promote (model_name 2) 2 (registry trained_once)).
Proof.
  assert (Hm : newest (model_name 2) Registry.Staging (registry trained_once) =
               Some (Registry.mkModelVersion 2 1 "runs:/1/models/station_2"
                       Registry.Staging)) by (vm_compute; reflexivity).
  assert (Hs : newest (scaler_name 2) Registry.Staging (registry trained_once) =
               Some (Registry.mkModelVersion 2 1 "runs:/1/scalers/station_2"
                       Registry.Staging)) by (vm_compute; reflexivity).
  rewrite (update_production_model_newest 2 trained_once trained_once _ _
             (conj eq_refl eq_refl) Hm Hs).
  split; [exact trained_once_reachable|].
  split; [reflexivity|].
  split; [unfold set_registry; proj; now rewrite <- app_assoc|].
  split; [exact (stage_of_promote _ _ _ _ Hm)|].
  split.
  { change "mbajk_station_2_scaler" with (scaler_name 2).
    rewrite stage_of_promote_ne by apply model_name_not_scaler_name.
    exact (stage_of_newest _ _ _ _ Hs). }
  exists 1%nat, 1%nat,
    (Registry.mkEntry 1 "runs:/1/models/station_2" Registry.Production),
    (Registry.mkEntry 1 "runs:/1/scalers/station_2" Registry.Staging).
  split; [vm_compute; reflexivity|]. split; [vm_compute; reflexivity|].
  split; [reflexivity|]. left. split; reflexivity.
Qed.

(** ** The look-ups of [predict_model.py] on their own *)
Section LookupProperties.
Context {R : Repo}.
Import Registry.

(** X1.  For a station whose model, or scaler, is registered with no version
    in production, the production look-up returns [None] and leaves the
    world as it was: the [IndexError] of taking the first of no versions is
    caught. *)
Theorem production_lookup_none_when_no_version (n : Z) (w : world) :
  (forall ems, registry w !! model_name n = Some ems ->
               latest_in_stage Production ems = None ->
               PredictModel.get_production_model n w = (w, Ok None)) /\
  (forall ess, registry w !! scaler_name n = Some ess ->
               latest_in_stage Production ess = None ->
               PredictModel.get_production_scaler n w = (w, Ok None)).
Proof.
  split; intros es Hr Hl.
  - unfold PredictModel.get_production_model, client_get_latest_versions,
      get_latest_versions. fold (model_name n). monad. rewrite Hr. simpl.
    now rewrite Hl.
  - unfold PredictModel.get_production_scaler, client_get_latest_versions,
      get_latest_versions. fold (scaler_name n). monad. rewrite Hr. simpl.
    now rewrite Hl.
Qed.

(** X2.  The production look-ups only read, and whatever happens they never
    raise [IndexError]; but a production version whose source holds no
    artifact of the right kind is an error, not [None]. *)
Theorem production_lookup_never_raises_IndexError (n : Z) (w : world) :
  fst (PredictModel.get_production_model n w) = w /\
  snd (PredictModel.get_production_model n w) <> Raise IndexError /\
  fst (PredictModel.get_production_scaler n w) = w /\
  snd (PredictModel.get_production_scaler n w) <> Raise IndexError /\
  (forall mv, newest (model_name n) Production (registry w) = Some mv ->
              (forall m, artifacts w !! source mv <> Some (KerasModel m)) ->
              exists e, snd (PredictModel.get_production_model n w) = Raise e) /\
  (forall sv, newest (scaler_name n) Production (registry w) = Some sv ->
              (forall sc, artifacts w !! source sv <> Some (SklearnModel sc)) ->
              exists e, snd (PredictModel.get_production_scaler n w) = Raise e).
Proof.
  repeat split.
  - now rewrite (get_production_model_reads n w w (conj eq_refl eq_refl)).
  - unfold PredictModel.get_production_model, client_get_latest_versions,
      mflow_load_model, get_latest_versions. monad.
    destruct (registry w !! _) as [es|]; simpl; [|discriminate].
    destruct (latest_in_stage Production es) as [mv|]; simpl; [|discriminate].
    destruct (artifacts w !! _) as [[m|sc]|]; discriminate.
  - now rewrite (get_production_scaler_reads n w w (conj eq_refl eq_refl)).
  - unfold PredictModel.get_production_scaler, client_get_latest_versions,
      load_scaler, get_latest_versions. monad.
    destruct (registry w !! _) as [es|]; simpl; [|discriminate].
    destruct (latest_in_stage Production es) as [mv|]; simpl; [|discriminate].
    destruct (artifacts w !! _) as [[m|sc]|]; discriminate.
  - intros mv Hmv Hart. apply newest_Some in Hmv as (es & Hr & Hl).
    unfold PredictModel.get_production_model, client_get_latest_versions,
      mflow_load_model, get_latest_versions. fold (model_name n). monad.
    rewrite Hr. simpl. rewrite Hl. simpl.
    destruct (artifacts w !! source mv) as [[m|sc]|] eqn:E; simpl; eauto.
    now destruct (Hart m).
  - intros sv Hsv Hart. apply newest_Some in Hsv as (es & Hr & Hl).
    unfold PredictModel.get_production_scaler, client_get_latest_versions,
      load_scaler, get_latest_versions. fold (scaler_name n). monad.
    rewrite Hr. simpl. rewrite Hl. simpl.
    destruct (artifacts w !! source sv) as [[m|sc]|] eqn:E; simpl; eauto.
    now destruct (Hart sc).
Qed.

(** X3.  The staging look-ups have no handler: for a station whose model, or
    scaler, is registered with no version in staging they raise
    [IndexError], with the world as it was. *)
Theorem staging_lookup_raises_IndexError (n : Z) (w : world) :
  (forall ems, registry w !! model_name n = Some ems ->
               latest_in_stage Staging ems = None ->
               PredictModel.get_latest_model_version n w = (w, Raise IndexError)) /\
  (forall ess, registry w !! scaler_name n = Some ess ->
               latest_in_stage Staging ess = None ->
               PredictModel.get_latest_scaler_version n w = (w, Raise IndexError)).
Proof.
  split; intros es Hr Hl.
  - unfold PredictModel.get_latest_model_version, client_get_latest_versions,
      get_latest_versions. fold (model_name n). monad. rewrite Hr. simpl.
    now rewrite Hl.
  - unfold PredictModel.get_latest_scaler_version, client_get_latest_versions,
      get_latest_versions. fold (scaler_name n). monad. rewrite Hr. simpl.
    now rewrite Hl.
Qed.


End LookupProperties.

Lemma production_lookup_none_when_no_version_witness :
  PredictModel.get_production_model 2 trained_once = (trained_once, Ok None) /\
  PredictModel.get_production_scaler 2 trained_once = (trained_once, Ok None).
Proof.
  destruct (production_lookup_none_when_no_version (R := demo) 2 trained_once)
    as [Hm Hs].
  split.
  - apply (Hm [Registry.mkEntry 1 "runs:/1/models/station_2" Registry.NoStage;
               Registry.mkEntry 1 "runs:/1/models/station_2" Registry.Staging]);
      vm_compute; reflexivity.
  - apply (Hs [Registry.mkEntry 1 "runs:/1/scalers/station_2" Registry.NoStage;
               Registry.mkEntry 1 "runs:/1/scalers/station_2" Registry.Staging]);
      vm_compute; reflexivity.
Defined.

Lemma staging_lookup_raises_IndexError_witness :
  PredictModel.get_latest_model_version 2 promoted_once =
    (promoted_once, Raise IndexError) /\
  PredictModel.get_latest_scaler_version 2 promoted_once =
    (promoted_once, Raise IndexError).
Proof.
  destruct (staging_lookup_raises_IndexError (R := demo) 2 promoted_once) as [Hm Hs].
  split.
  - apply (Hm [Registry.mkEntry 1 "runs:/1/models/station_2" Registry.NoStage;
               Registry.mkEntry 1 "runs:/1/models/station_2" Registry.Production]);
      vm_compute; reflexivity.
  - apply (Hs [Registry.mkEntry 1 "runs:/1/scalers/station_2" Registry.NoStage;
               Registry.mkEntry 1 "runs:/1/scalers/station_2" Registry.Production]);
      vm_compute; reflexivity.
Defined.

Lemma production_lookup_never_raises_IndexError_witness :
  exists e, snd (PredictModel.get_production_model 2 lost_artifacts) = Raise e.
Proof.
  destruct (production_lookup_never_raises_IndexError (R := demo) 2 lost_artifacts)
    as (_ & _ & _ & _ & Hm & _).
  apply (Hm (Registry.mkModelVersion 2 1 "runs:/1/models/station_2" Registry.Production)).
  - vm_compute. reflexivity.
  - intros m. vm_compute. discriminate.
Defined.

(** ** Cycles that raise *)

(** A helper call in hypothesis [H] returned, or it raised and [fin] ends
    the proof. *)
Tactic Notation "helper_step" hyp(H) constr(r) "as" simple_intropattern(pat)
    "else" tactic3(fin) :=
  destruct r as [pat|?e] eqn:?;
  [erewrite bind_Ok in H by (apply helper_Ok; reflexivity); cbv beta iota in H
  |erewrite bind_Raise in H by (apply helper_Raise; reflexivity); fin].

Tactic Notation "lookup_step" hyp(H) constr(w) constr(f) constr(reads)
    "as" simple_intropattern(pat) "else" tactic3(fin) :=
  destruct (snd (f w)) as [pat|?e] eqn:?;
  [erewrite bind_Ok in H
     by (eapply (at_store _ w); [apply reads|split; reflexivity|eassumption]);
   cbv beta iota in H
  |erewrite bind_Raise in H
     by (eapply (at_store _ w); [apply reads|split; reflexivity|eassumption]);
   fin].

Section FailureProperties.
Context {R : Repo}.
Import Registry.

(** How a promotion cycle ends: it got through the evaluation of its
    candidate and of the baseline, if any, or it raised before any write. *)
Lemma promote_outcome (n : Z) (w w' : world) (r : result unit) :
  PredictModel.predict_model_pipeline n w = (w', r) ->
  (exists c, candidate_evaluated n w c /\
             (no_baseline n w \/ exists b, baseline_evaluated n w c b)) \/
  (exists e, r = Raise e /\ left_untouched w w').
Proof.
  unfold PredictModel.predict_model_pipeline. intros H.
  destruct (active_run w) as [run|] eqn:Hrun.
  { erewrite bind_Raise in H by (eapply start_run_Some; eassumption).
    injection H as <- <-. right. eexists. split; [reflexivity|].
    repeat split. congruence. }
  erewrite bind_Ok in H by (apply start_run_None; assumption). cbv beta iota in H.
  helper_step H (load_bike_station_dataset (str n) "test") as dataset
    else (injection H as <- <-; right; eexists; repeat split).
  lookup_step H w (PredictModel.get_production_model n) get_production_model_reads
    as production_model else (injection H as <- <-; right; eexists; repeat split).
  lookup_step H w (PredictModel.get_production_scaler n) get_production_scaler_reads
    as production_scaler else (injection H as <- <-; right; eexists; repeat split).
  lookup_step H w (PredictModel.get_latest_model_version n)
    get_latest_model_version_reads as model
    else (injection H as <- <-; right; eexists; repeat split).
  lookup_step H w (PredictModel.get_latest_scaler_version n)
    get_latest_scaler_version_reads as scaler
    else (injection H as <- <-; right; eexists; repeat split).
  helper_step H (create_test_train_split (str n)) as [train_data test_data]
    else (injection H as <- <-; right; eexists; repeat split).
  helper_step H (prepare_model_data dataset scaler train_data test_data)
    as [fitted [[[X_train y_train] X_test] y_test]]
    else (injection H as <- <-; right; eexists; repeat split).
  helper_step H (predict model X_test) as y_pred
    else (injection H as <- <-; right; eexists; repeat split).
  helper_step H (evaluate_model_performance y_test y_pred dataset fitted)
    as [[mse mae] evs]
    else (injection H as <- <-; right; eexists; repeat split).
  do 3 (erewrite bind_Ok in H by reflexivity; cbv beta iota in H).
  match goal with
  | Hm : snd (PredictModel.get_latest_model_version n w) = Ok model |- _ =>
      destruct (get_latest_model_version_Ok n w model Hm) as (ems & mv & Hems & Hmv)
  end.
  match goal with
  | Hs : snd (PredictModel.get_latest_scaler_version n w) = Ok scaler |- _ =>
      destruct (get_latest_scaler_version_Ok n w scaler Hs) as (ess & sv & Hess & Hsv)
  end.
  assert (Hc : candidate_evaluated n w
                 (mkCandidate R dataset mv sv model scaler train_data test_data fitted
                    X_train y_train X_test y_test y_pred mse mae evs)).
  { constructor; simpl; try assumption; unfold newest.
    - now rewrite Hems.
    - now rewrite Hess. }
  destruct production_model as [pm|];
    [|left; eexists; split; [exact Hc|left; eexists _, _; eauto]].
  destruct production_scaler as [ps|];
    [|left; eexists; split; [exact Hc|left; eexists _, _; eauto]].
  destruct (predict pm X_test) as [y_prod|e] eqn:Hpp.
  2: { erewrite bind_Raise in H
         by (erewrite bind_Raise by (apply helper_Raise; reflexivity); reflexivity).
       injection H as <- <-; right; eexists; repeat split. }
  destruct (evaluate_model_performance y_test y_prod dataset ps)
    as [[[mse_production mae_production] evs_production]|e] eqn:Hpe.
  2: { erewrite bind_Raise in H
         by (erewrite bind_Ok by (apply helper_Ok; reflexivity); cbv beta iota;
             erewrite bind_Raise by (apply helper_Raise; eassumption); reflexivity).
       injection H as <- <-; right; eexists; repeat split. }
  left. eexists. split; [exact Hc|]. right.
  exists (mkBaseline R pm ps y_prod mse_production mae_production evs_production).
  constructor; simpl; assumption.
Qed.


(** X5.  Without a staged model there is no candidate: for a station whose
    model is registered with no version in staging, the promotion cycle
    raises [IndexError] right after the production look-ups, before any
    split or evaluation, and leaves its run open. *)
Theorem promotion_cycle_without_candidate_raises (n : Z) (w : world) (dataset : Dataset)
    (production_model : option Model) (production_scaler : option Scaler)
    (ems : list entry) :
  active_run w = None ->
  load_bike_station_dataset (str n) "test" = Ok dataset ->
  snd (PredictModel.get_production_model n w) = Ok production_model ->
  snd (PredictModel.get_production_scaler n w) = Ok production_scaler ->
  registry w !! model_name n = Some ems ->
  latest_in_stage Staging ems = None ->
  PredictModel.predict_model_pipeline n w =
    (add_call (CallLoadDataset (str n) "test")
       (set_active_run (Some (S (runs_started w))) (S (runs_started w)) w),
     Raise IndexError).
Proof.
  intros Hrun Hdata Hpm Hps Hr Hl.
  unfold PredictModel.predict_model_pipeline.
  run ltac:(apply start_run_None; assumption).
  run ltac:(apply helper_Ok; eassumption).
  run ltac:(eapply (at_store _ w);
            [apply get_production_model_reads|split; reflexivity|eassumption]).
  run ltac:(eapply (at_store _ w);
            [apply get_production_scaler_reads|split; reflexivity|eassumption]).
  erewrite bind_Raise; [reflexivity|].
  unfold PredictModel.get_latest_model_version, client_get_latest_versions,
    get_latest_versions. fold (model_name n). monad. proj. rewrite Hr. simpl.
  now rewrite Hl.
Qed.

(** How a training cycle ends: the helpers gave it what it needs, or it
    raised before any write. *)
Lemma train_outcome (n : Z) (w w' : world) (r : result unit) :
  TrainModel.train_model_pipeline n w = (w', r) ->
  (exists t, training_succeeds n w t) \/
  (exists e, r = Raise e /\ left_untouched w w').
Proof.
  unfold TrainModel.train_model_pipeline. intros H.
  destruct (active_run w) as [run|] eqn:Hrun.
  { erewrite bind_Raise in H by (eapply start_run_Some; eassumption).
    injection H as <- <-. right. eexists. split; [reflexivity|].
    repeat split. congruence. }
  erewrite bind_Ok in H by (apply start_run_None; assumption). cbv beta iota in H.
  helper_step H (load_bike_station_dataset (str n) "train") as dataset
    else (injection H as <- <-; right; eexists; repeat split).
  helper_step H (create_test_train_split (str n)) as [train_data test_data]
    else (injection H as <- <-; right; eexists; repeat split).
  helper_step H (prepare_model_data dataset MinMaxScaler train_data test_data)
    as [scaler [[[X_train y_train] X_test] y_test]]
    else (injection H as <- <-; right; eexists; repeat split).
  helper_step H (train_model X_train y_train X_test y_test 10 32 0) as model
    else (injection H as <- <-; right; eexists; repeat split).
  do 3 (erewrite bind_Ok in H by reflexivity; cbv beta iota in H).
  helper_step H (predict model X_test) as y_pred
    else (injection H as <- <-; right; eexists; repeat split).
  left.
  exists (mkTraining R dataset train_data test_data scaler X_train y_train X_test y_test
            model y_pred).
  constructor; assumption.
Qed.


End FailureProperties.


Lemma promotion_cycle_without_candidate_raises_witness :
  snd (PredictModel.predict_model_pipeline 2 promoted_once) = Raise IndexError.
Proof.
  rewrite (promotion_cycle_without_candidate_raises (R := demo) 2 promoted_once "2/test"
             (Some 0.5%float) (Some 1%nat)
             [Registry.mkEntry 1 "runs:/1/models/station_2" Registry.NoStage;
              Registry.mkEntry 1 "runs:/1/models/station_2" Registry.Production]);
    try (vm_compute; reflexivity).
Defined.


(** ** Stations side by side *)

Lemma str_inj (m n : Z) : str m = str n -> m = n.
Proof.
  unfold str. intros H. apply (f_equal NilZero.int_of_string) in H.
  rewrite !NilZero.isi in H.
  - injection H as H. apply (f_equal Z.of_int) in H. now rewrite !DecimalZ.of_to in H.
  - destruct n; simpl; try discriminate. intros [= E].
    now apply Unsigned.to_uint_nonnil in E.
  - destruct n; simpl; try discriminate. intros [= E].
    now apply Unsigned.to_uint_nonnil in E.
  - destruct m; simpl; try discriminate. intros [= E].
    now apply Unsigned.to_uint_nonnil in E.
  - destruct m; simpl; try discriminate. intros [= E].
    now apply Unsigned.to_uint_nonnil in E.
Qed.

Lemma names_of_other_station (m n : Z) :
  m <> n ->
  model_name m <> model_name n /\ model_name m <> scaler_name n /\
  scaler_name m <> model_name n /\ scaler_name m <> scaler_name n.
Proof.
  intros Hne. destruct (names_apart m n) as [[H _]|H]; [|exact H].
  unfold model_name in H. apply String.app_inj in H. now apply str_inj in H.
Qed.

(** X9.  The registry names built from station numbers do not collide: two
    different stations have different model names and different scaler
    names, and no station's model name is any station's scaler name. *)
Theorem registry_names_do_not_collide (m n : Z) :
  (m <> n -> "mbajk_station_" +:+ str m <> "mbajk_station_" +:+ str n) /\
  (m <> n ->
   "mbajk_station_" +:+ str m +:+ "_scaler" <> "mbajk_station_" +:+ str n +:+ "_scaler") /\
  "mbajk_station_" +:+ str m <> "mbajk_station_" +:+ str n +:+ "_scaler".
Proof.
  fold (model_name m) (model_name n) (scaler_name m) (scaler_name n).
  split; [|split].
  - intros H. now apply names_of_other_station.
  - intros H. now apply names_of_other_station.
  - destruct (names_apart m n) as [[H1 H2]|(_ & H & _)]; [|exact H].
    rewrite H1. apply model_name_not_scaler_name.
Qed.

Lemma registry_names_do_not_collide_witness :
  "mbajk_station_" +:+ str 1 <> "mbajk_station_" +:+ str 12 /\
  "mbajk_station_" +:+ str 1 +:+ "_scaler" <> "mbajk_station_" +:+ str 12 +:+ "_scaler".
Proof.
  destruct (registry_names_do_not_collide 1 12) as (Hm & Hs & _).
  split; [apply Hm|apply Hs]; lia.
Defined.

Section StationProperties.
Context {R : Repo}.
Import Registry.

Lemma entries_staged_ne (name name' uri : string) (run : nat) (r : Registry.t) :
  name <> name' -> entries name' (staged name uri run r) = entries name' r.
Proof. intros H. unfold staged. now rewrite entries_insert_ne. Qed.

Lemma entries_promote_ne (name name' : string) (v : nat) (r : Registry.t) :
  name <> name' -> entries name' (promote name v r) = entries name' r.
Proof. intros H. unfold promote. now rewrite entries_insert_ne. Qed.

(** What a cycle for station [m] makes of the registry, whether it went
    through or raised. *)
Lemma cycle_registry (m : Z) (w w' : world) (r : result unit) :
  TrainModel.train_model_pipeline m w = (w', r) \/
  PredictModel.predict_model_pipeline m w = (w', r) ->
  registry w' = registry w \/
  (exists model_uri scaler_uri run,
     registry w' =
       staged (scaler_name m) scaler_uri run (staged (model_name m) model_uri run
                                                (registry w))) \/
  (exists mv sv,
     newest (model_name m) Staging (registry w) = Some mv /\
     newest (scaler_name m) Staging (registry w) = Some sv /\
     registry w' = promote_pair m (version mv) (version sv) (registry w)).
Proof.
  intros [H|H].
  - destruct (train_outcome m w w' r H) as [(t & Ht)|(e & _ & Hu & _)]; [|now left].
    rewrite (train_cycle m w t Ht) in H. injection H as <- <-.
    right. left. unfold trained, model_staged. proj. eauto.
  - destruct (promote_outcome m w w' r H) as [(c & Hc & Hb)|(e & _ & Hu & _)];
      [|now left].
    destruct Hb as [Hcold|(b & Hb)].
    + rewrite (cycle_cold_start m w c Hc Hcold) in H. injection H as <- <-.
      right. right. destruct Hc. unfold finished. proj. eauto.
    + rewrite (cycle_baseline m w c b Hc Hb) in H.
      destruct (c_mse c <? b_mse b)%float; injection H as <- <-; unfold finished; proj.
      * right. right. destruct Hc. eauto.
      * now left.
Qed.

(** X10.  A cycle for one station, training or promotion, finished or
    raised, leaves the versions of every other station's model and scaler
    exactly as they were. *)
Theorem cycle_leaves_other_stations_untouched (m n : Z) (w w' : world) (r : result unit) :
  m <> n ->
  TrainModel.train_model_pipeline m w = (w', r) \/
  PredictModel.predict_model_pipeline m w = (w', r) ->
  entries (model_name n) (registry w') = entries (model_name n) (registry w) /\
  entries (scaler_name n) (registry w') = entries (scaler_name n) (registry w).
Proof.
  intros Hne H. destruct (names_of_other_station m n Hne) as (H1 & H2 & H3 & H4).
  destruct (cycle_registry m w w' r H)
    as [->|[(muri & suri & run & ->)|(mv & sv & _ & _ & ->)]].
  - now split.
  - now rewrite !entries_staged_ne.
  - unfold promote_pair. now rewrite !entries_promote_ne.
Qed.

Lemma stage_of_staged_keeps (name name' uri : string) (run v : nat) (st : Stage)
    (r : Registry.t) :
  stage_of name' v r = Some st -> stage_of name' v (staged name uri run r) = Some st.
Proof.
  destruct v as [|i]; [discriminate|]. unfold stage_of, staged.
  destruct (decide (name = name')) as [<-|Hne]; [|now rewrite lookup_insert_ne].
  rewrite lookup_insert_eq.
  destruct (r !! name) as [es|]; simpl; [|discriminate].
  destruct (es !! i) as [e|] eqn:E; simpl; [|discriminate].
  intros H. now rewrite (lookup_app_l_Some _ _ _ _ E).
Qed.

Lemma stage_of_promote_keeps (name name' : string) (vm v : nat) (r : Registry.t) :
  stage_of name' v r = Some Production ->
  stage_of name' v (promote name vm r) = Some Production.
Proof.
  destruct v as [|i]; [discriminate|]. unfold stage_of, promote.
  destruct (decide (name = name')) as [<-|Hne]; [|now rewrite lookup_insert_ne].
  rewrite lookup_insert_eq.
  destruct (r !! name) as [es|]; simpl; [|discriminate].
  destruct (es !! i) as [e|] eqn:E; simpl; [|discriminate].
  intros [= H].
  destruct (decide (Init.Nat.pred vm = i)) as [->|Hi].
  - now rewrite list_lookup_alter_eq, E.
  - rewrite list_lookup_alter_ne by exact Hi. rewrite E. simpl. now rewrite H.
Qed.

(** X8.  Nothing ever leaves production: after any cycle for any station,
    training or promotion, finished or raised, every version that was in
    production still is; a promotion over a baseline therefore leaves the
    station with its old production versions next to the new one. *)
Theorem production_versions_stay_in_production (m : Z) (w w' : world) (r : result unit)
    (name : string) (v : nat) :
  TrainModel.train_model_pipeline m w = (w', r) \/
  PredictModel.predict_model_pipeline m w = (w', r) ->
  stage_of name v (registry w) = Some Production ->
  stage_of name v (registry w') = Some Production.
Proof.
  intros H Hv.
  destruct (cycle_registry m w w' r H)
    as [->|[(muri & suri & run & ->)|(mv & sv & _ & _ & ->)]].
  - exact Hv.
  - now do 2 apply stage_of_staged_keeps.
  - unfold promote_pair. now do 2 apply stage_of_promote_keeps.
Qed.




End StationProperties.

Lemma cycle_leaves_other_stations_untouched_witness :
  entries (model_name 2) (registry (fst (TrainModel.train_model_pipeline 3 trained_once))) =
    entries (model_name 2) (registry trained_once).
Proof.
  apply (cycle_leaves_other_stations_untouched (R := demo) 3 2 trained_once
           (fst (TrainModel.train_model_pipeline 3 trained_once))
           (snd (TrainModel.train_model_pipeline 3 trained_once))).
  - lia.
  - left. apply surjective_pairing.
Defined.

Lemma production_versions_stay_in_production_witness :
  Registry.stage_of "mbajk_station_2" 2
    (registry (fst (PredictModel.predict_model_pipeline 2 better_candidate))) =
    Some Registry.Production /\
  Registry.stage_of "mbajk_station_2" 4
    (registry (fst (PredictModel.predict_model_pipeline 2 better_candidate))) =
    Some Registry.Production.
Proof.
  split.
  - apply (production_versions_stay_in_production (R := demo) 2 better_candidate
             (fst (PredictModel.predict_model_pipeline 2 better_candidate))
             (snd (PredictModel.predict_model_pipeline 2 better_candidate))).
    + right. apply surjective_pairing.
    + vm_compute. reflexivity.
  - vm_compute. reflexivity.
Defined.


(** ** The route's service calls *)
Section RouteCalls.
Context {S : Prediction.Services}.
Import Prediction.

(** X12.  With both parameters valid the route calls its services in one
    order, history, model service, forecast, save, and stops at the first
    that raises, passing the exception on; the forecast is returned only
    once it has been saved, so a failing save loses it. *)
Theorem route_calls_services_in_order (station_number n_future : Z)
    (cs : list service_call) :
  (1 <= n_future <= 7)%Z -> (0 <= station_number <= 29)%Z ->
  let model_path := str station_number +:+ "/model" in
  let scaler_path := str station_number +:+ "/minmax" in
  (forall e, get_bike_station_history_data station_number = Raise e ->
     predict_multiple station_number n_future cs =
       (cs ++ [GetHistory station_number], Raise e)) /\
  (forall data e,
     get_bike_station_history_data station_number = Ok data ->
     MLService model_path scaler_path = Raise e ->
     predict_multiple station_number n_future cs =
       (cs ++ [GetHistory station_number; NewMLService model_path scaler_path],
        Raise e)) /\
  (forall data ml e,
     get_bike_station_history_data station_number = Ok data ->
     MLService model_path scaler_path = Ok ml ->
     ml_predict_multiple ml data n_future = Raise e ->
     predict_multiple station_number n_future cs =
       (cs ++ [GetHistory station_number; NewMLService model_path scaler_path;
               PredictMultiple data n_future], Raise e)) /\
  (forall data ml predictions out,
     get_bike_station_history_data station_number = Ok data ->
     MLService model_path scaler_path = Ok ml ->
     ml_predict_multiple ml data n_future = Ok predictions ->
     save station_number n_future predictions = out ->
     predict_multiple station_number n_future cs =
       (cs ++ [GetHistory station_number; NewMLService model_path scaler_path;
               PredictMultiple data n_future;
               Save station_number n_future predictions],
        match out with Ok _ => Ok predictions | Raise e => Raise e end)).
Proof.
  intros Hn Hs model_path scaler_path.
  assert (Hvalid : forall k : M (list service_call) (list PredictionDTO),
            (raise_if (n_future <? 1)%Z
               (HTTPException 400 "n_future must be greater than 0");;
             raise_if (n_future >? 7)%Z
               (HTTPException 400 "n_future must be less than 8");;
             raise_if ((station_number <? 0)%Z || (station_number >? 29)%Z)
               (HTTPException 400 "station_number must be between 0 and 28");;
             k) cs = k cs).
  { intros k. unfold raise_if. monad.
    destruct (Z.ltb_spec n_future 1); [lia|].
    destruct (Z.gtb_spec n_future 7); [lia|].
    destruct (Z.ltb_spec station_number 0); [lia|].
    destruct (Z.gtb_spec station_number 29); [lia|]. reflexivity. }
  unfold predict_multiple. rewrite Hvalid. fold model_path scaler_path.
  unfold service. monad. repeat split.
  - intros e ->. reflexivity.
  - intros data e -> ->. cbn. now rewrite <- app_assoc.
  - intros data ml e -> -> ->. cbn. now rewrite <- !app_assoc.
  - intros data ml predictions out -> -> -> <-. cbn.
    destruct (save station_number n_future predictions) as [[]|e];
      now rewrite <- !app_assoc.
Qed.

End RouteCalls.

Lemma route_calls_services_in_order_witness :
  Prediction.predict_multiple (S := demo_services) 5 2 [] =
    ([Prediction.GetHistory 5; Prediction.NewMLService "5/model" "5/minmax";
      Prediction.PredictMultiple (S := demo_services) [1; 2; 3]%Z 2;
      Prediction.Save (S := demo_services) 5 2 [6; 11]%Z],
     Ok [6; 11]%Z).
Proof.
  destruct (route_calls_services_in_order (S := demo_services) 5 2 [])
    as (_ & _ & _ & H); try lia.
  exact (H [1; 2; 3]%Z (Some (tt, tt)) [6; 11]%Z (Ok tt)
           eq_refl eq_refl eq_refl eq_refl).
Defined.

(** ** Metrics that are not numbers *)

Lemma SFcompare_refl (s : spec_float) : s <> S754_nan -> SFcompare s s = Some Eq.
Proof.
  destruct s as [b|b| |b m e]; simpl; intros H; try congruence;
    try (destruct b; reflexivity).
  destruct b; rewrite Z.compare_refl;
    change (PosDef.Pos.compare_cont Eq m m) with (Pos.compare_cont Eq m m);
    now rewrite Pos.compare_cont_refl.
Qed.

Lemma nan_not_lower (a b : float) :
  (a =? a)%float = false \/ (b =? b)%float = false -> (a <? b)%float = false.
Proof.
  rewrite !FloatAxioms.eqb_spec, FloatAxioms.ltb_spec. unfold SFeqb, SFltb.
  intros [H|H].
  - destruct (Prim2SF a) eqn:E; try reflexivity;
      rewrite SFcompare_refl in H by discriminate; discriminate.
  - destruct (Prim2SF b) eqn:E; try (now destruct (Prim2SF a));
      rewrite SFcompare_refl in H by discriminate; discriminate.
Qed.

Section NanProperties.
Context {R : Repo}.

(** X13.  A metric that is not a number never promotes: when the candidate's
    MSE or the production model's MSE is NaN, the comparison is false and
    the cycle writes nothing to the registry; a production model whose MSE
    comes out as NaN is never replaced. *)
Theorem nan_mse_never_promotes (n : Z) (w : world) (c : Candidate) (b : Baseline) :
  candidate_evaluated n w c -> baseline_evaluated n w c b ->
  (c_mse c =? c_mse c)%float = false \/ (b_mse b =? b_mse b)%float = false ->
  exists w',
    PredictModel.predict_model_pipeline n w = (w', Ok tt) /\
    writes w' = writes w /\ registry w' = registry w.
Proof.
  intros Hc Hb Hnan. rewrite (cycle_baseline n w c b Hc Hb).
  rewrite (nan_not_lower _ _ Hnan). eexists. split; [reflexivity|].
  unfold finished. proj. now rewrite app_nil_r.
Qed.

End NanProperties.

Lemma nan_mse_never_promotes_witness :
  exists w',
    PredictModel.predict_model_pipeline 2 nan_candidate = (w', Ok tt) /\
    registry w' = registry nan_candidate.
Proof.
  destruct (nan_mse_never_promotes (R := demo) 2 nan_candidate (second_candidate nan)
              first_baseline) as (w' & Hrun & _ & Hreg).
  - constructor; vm_compute; reflexivity.
  - constructor; vm_compute; reflexivity.
  - left. vm_compute. reflexivity.
  - exists w'. split; [exact Hrun|exact Hreg].
Defined.

(** ** What a promotion leaves in staging *)
Section ConsumedProperties.
Context {R : Repo}.
Import Registry.

(** Once the newest version in a stage has moved elsewhere, the newest
    version left in that stage, if any, is an older one. *)
Lemma newest_after_move (name : string) (st st' : Stage) (r : Registry.t)
    (mv mv' : ModelVersion) :
  st' <> st ->
  newest name st r = Some mv ->
  newest name st (<[name := alter (set_stage st') (pred (version mv)) (entries name r)]> r)
    = Some mv' ->
  (version mv' < version mv)%nat.
Proof.
  intros Hst Hmv Hmv'.
  apply newest_entry in Hmv as (i & e & Hv & Hi & He & Hlast).
  rewrite Hv in *. simpl in Hmv'.
  apply newest_entry in Hmv' as (j & e' & Hv' & Hj & He' & _).
  rewrite Hv'. rewrite entries_insert_eq in Hj.
  apply alter_stage_lookup in Hj as (p & Hp & _ & Hsame & Hat).
  destruct (lt_eq_lt_dec j i) as [[Hlt|Heq]|Hgt]; [lia| |].
  - exfalso. apply Hst. rewrite <- He'. symmetry. now apply Hat.
  - exfalso. apply (Hlast j p Hgt Hp). rewrite <- (Hsame ltac:(lia)). exact He'.
Qed.

(** X14.  A promotion uses its candidate up: after a cycle that promoted, in
    a cold start or over a worse baseline, the candidate is no longer
    staged, and whatever version of the model a later cycle finds in
    staging is older than it. *)
Theorem promotion_uses_candidate_up (n : Z) (w : world) (c : Candidate) :
  candidate_evaluated n w c ->
  no_baseline n w \/
  (exists b, baseline_evaluated n w c b /\ (c_mse c <? b_mse b)%float = true) ->
  stage_of (model_name n) (version (c_mv c))
    (registry (fst (PredictModel.predict_model_pipeline n w))) = Some Production /\
  forall mv,
    newest (model_name n) Staging
      (registry (fst (PredictModel.predict_model_pipeline n w))) = Some mv ->
    (version mv < version (c_mv c))%nat.
Proof.
  intros Hc Hpromoted.
  assert (Hreg : registry (fst (PredictModel.predict_model_pipeline n w)) =
                 promote_pair n (version (c_mv c)) (version (c_sv c)) (registry w)).
  { destruct Hpromoted as [Hcold|(b & Hb & Hlt)].
    - now rewrite (cycle_cold_start n w c Hc Hcold).
    - rewrite (cycle_baseline n w c b Hc Hb), Hlt. reflexivity. }
  rewrite Hreg. destruct Hc as [_ _ Hmv Hsv _ _ _ _ _ _]. split.
  - now apply stage_of_promote_pair.
  - intros mv Hnew. apply (newest_after_move (model_name n) Staging Production (registry w));
      [discriminate|exact Hmv|].
    revert Hnew. unfold promote_pair, newest. unfold promote at 1.
    rewrite lookup_insert_ne by (apply not_eq_sym, model_name_not_scaler_name).
    unfold promote. now rewrite !lookup_insert_eq.
Qed.

End ConsumedProperties.

Lemma promotion_uses_candidate_up_witness :
  Registry.stage_of (model_name 2) 2
    (registry (fst (PredictModel.predict_model_pipeline 2 trained_once))) =
    Some Registry.Production /\
  newest (model_name 2) Registry.Staging
    (registry (fst (PredictModel.predict_model_pipeline 2 trained_once))) = None.
Proof.
  destruct (promotion_uses_candidate_up (R := demo) 2 trained_once first_candidate)
    as (Hst & _).
  - constructor; vm_compute; reflexivity.
  - left. exists None, None. repeat split; try (vm_compute; reflexivity). now left.
  - split; [exact Hst|]. vm_compute. reflexivity.
Defined.

(** ** What is in production after a promotion *)
Section ServedProperties.
Context {R : Repo}.
Import Registry.

Lemma latest_from_last (v : nat) (st : Stage) (l : list entry) (i : nat) (e : entry) :
  l !! i = Some e -> entry_stage e = st ->
  (forall j e', (i < j)%nat -> l !! j = Some e' -> entry_stage e' <> st) ->
  latest_from v st l = Some (model_version_of (v + i) e).
Proof.
  revert v i. induction l as [|e0 l IH]; intros v i Hi Hst Hlast; [discriminate|].
  destruct i as [|i]; simpl in *.
  - injection Hi as ->.
    assert (Hnone : forall u, latest_from u st l = None).
    { clear -Hlast. intros u. destruct (latest_from u st l) as [mv|] eqn:E; [|reflexivity].
      apply RegistryFacts.latest_from_Some in E as (j & e' & Hj & He' & _).
      now destruct (Hlast (S j) e' ltac:(lia) Hj). }
    rewrite Hnone. rewrite decide_True by exact Hst. now rewrite Nat.add_0_r.
  - rewrite (IH (S v) i Hi Hst).
    + do 2 f_equal. lia.
    + intros j e' Hj. apply (Hlast (S j) e'). lia.
Qed.

Lemma latest_from_ge (v : nat) (st : Stage) (l : list entry) (j : nat) (e : entry) :
  l !! j = Some e -> entry_stage e = st ->
  exists mv, latest_from v st l = Some mv /\ (v + j <= version mv)%nat.
Proof.
  revert v j. induction l as [|e0 l IH]; intros v j Hj Hst; [discriminate|].
  destruct j as [|j]; simpl in *.
  - injection Hj as ->. destruct (latest_from (S v) st l) as [mv|] eqn:E.
    + exists mv. split; [reflexivity|].
      apply RegistryFacts.latest_from_Some in E as (i & e' & _ & _ & -> & _). simpl. lia.
    + rewrite decide_True by exact Hst. eexists. split; [reflexivity|]. simpl. lia.
  - destruct (IH (S v) j Hj Hst) as (mv & -> & Hle). exists mv. split; [reflexivity|]. lia.
Qed.

(** The newest staging version, once promoted above every production
    version, is the newest production version. *)
Lemma newest_production_after_promote (name : string) (r : Registry.t) (mv : ModelVersion) :
  newest name Staging r = Some mv ->
  (forall pv, newest name Production r = Some pv -> (version pv < version mv)%nat) ->
  newest name Production (promote name (version mv) r) =
    Some (mkModelVersion (version mv) (run_id mv) (source mv) Production).
Proof.
  intros Hmv Hbelow.
  apply newest_Some in Hmv as (es & Hr & Hl).
  apply RegistryFacts.latest_in_stage_Some in Hl as (i & e & Hi & He & -> & _).
  unfold newest in *. unfold promote. rewrite lookup_insert_eq. rewrite Hr in *.
  simpl in *. unfold latest_in_stage in *.
  rewrite (latest_from_last 1 Production _ i (set_stage Production e)).
  - reflexivity.
  - now rewrite list_lookup_alter_eq, Hi.
  - reflexivity.
  - intros j e' Hj Hl' Hprod. rewrite list_lookup_alter_ne in Hl' by lia.
    destruct (latest_from_ge 1 Production es j e' Hl' Hprod) as (pv & Hpv & Hle).
    specialize (Hbelow pv Hpv). lia.
Qed.

Lemma staged_model_artifact (n : Z) (w : world) (mv : ModelVersion) (m : Model) :
  newest (model_name n) Staging (registry w) = Some mv ->
  snd (PredictModel.get_latest_model_version n w) = Ok m ->
  artifacts w !! source mv = Some (KerasModel m).
Proof.
  intros Hmv. apply newest_Some in Hmv as (es & Hr & Hl).
  unfold PredictModel.get_latest_model_version, client_get_latest_versions,
    mflow_load_model, get_latest_versions. fold (model_name n). monad.
  rewrite Hr. simpl. rewrite Hl. simpl.
  destruct (artifacts w !! source mv) as [[m'|sc]|]; simpl; congruence.
Qed.

Lemma staged_scaler_artifact (n : Z) (w : world) (sv : ModelVersion) (sc : Scaler) :
  newest (scaler_name n) Staging (registry w) = Some sv ->
  snd (PredictModel.get_latest_scaler_version n w) = Ok sc ->
  artifacts w !! source sv = Some (SklearnModel sc).
Proof.
  intros Hsv. apply newest_Some in Hsv as (es & Hr & Hl).
  unfold PredictModel.get_latest_scaler_version, client_get_latest_versions,
    load_scaler, get_latest_versions. fold (scaler_name n). monad.
  rewrite Hr. simpl. rewrite Hl. simpl.
  destruct (artifacts w !! source sv) as [[m'|sc']|]; simpl; congruence.
Qed.

Lemma production_model_found (n : Z) (w : world) (pv : ModelVersion) (m : Model) :
  newest (model_name n) Production (registry w) = Some pv ->
  artifacts w !! source pv = Some (KerasModel m) ->
  PredictModel.get_production_model n w = (w, Ok (Some m)).
Proof.
  intros Hpv Ha. apply newest_Some in Hpv as (es & Hr & Hl).
  unfold PredictModel.get_production_model, client_get_latest_versions,
    mflow_load_model, get_latest_versions. fold (model_name n). monad.
  rewrite Hr. simpl. rewrite Hl. simpl. now rewrite Ha.
Qed.

Lemma production_scaler_found (n : Z) (w : world) (pv : ModelVersion) (sc : Scaler) :
  newest (scaler_name n) Production (registry w) = Some pv ->
  artifacts w !! source pv = Some (SklearnModel sc) ->
  PredictModel.get_production_scaler n w = (w, Ok (Some sc)).
Proof.
  intros Hpv Ha. apply newest_Some in Hpv as (es & Hr & Hl).
  unfold PredictModel.get_production_scaler, client_get_latest_versions,
    load_scaler, get_latest_versions. fold (scaler_name n). monad.
  rewrite Hr. simpl. rewrite Hl. simpl. now rewrite Ha.
Qed.

(** X15.  After a cycle that promoted a candidate whose versions are above
    every version already in production, the production look-ups return
    that candidate: the model that was evaluated, and the scaler as it was
    stored by training, not as [prepare_model_data] refitted it in this
    cycle. *)
Theorem promoted_candidate_is_the_new_baseline (n : Z) (w : world) (c : Candidate) :
  candidate_evaluated n w c ->
  no_baseline n w \/
  (exists b, baseline_evaluated n w c b /\ (c_mse c <? b_mse b)%float = true) ->
  (forall pv, newest (model_name n) Production (registry w) = Some pv ->
              (version pv < version (c_mv c))%nat) ->
  (forall pv, newest (scaler_name n) Production (registry w) = Some pv ->
              (version pv < version (c_sv c))%nat) ->
  let w' := fst (PredictModel.predict_model_pipeline n w) in
  PredictModel.get_production_model n w' = (w', Ok (Some (c_model c))) /\
  PredictModel.get_production_scaler n w' = (w', Ok (Some (c_scaler c))).
Proof.
  intros Hc Hpromoted Hbm Hbs w'.
  assert (Hw : registry w' =
                 promote_pair n (version (c_mv c)) (version (c_sv c)) (registry w) /\
               artifacts w' = artifacts w).
  { subst w'. destruct Hpromoted as [Hcold|(b & Hb & Hlt)].
    - now rewrite (cycle_cold_start n w c Hc Hcold).
    - rewrite (cycle_baseline n w c b Hc Hb), Hlt. now split. }
  destruct Hw as [Hreg Hart].
  destruct Hc as [_ _ Hmv Hsv Hm Hs _ _ _ _].
  assert (Hne := model_name_not_scaler_name n).
  split.
  - eapply production_model_found.
    + rewrite Hreg. unfold promote_pair, newest. unfold promote at 1.
      rewrite lookup_insert_ne by congruence.
      exact (newest_production_after_promote _ _ _ Hmv Hbm).
    + rewrite Hart. simpl. exact (staged_model_artifact n w _ _ Hmv Hm).
  - eapply production_scaler_found.
    + rewrite Hreg. unfold promote_pair.
      apply newest_production_after_promote.
      * unfold newest, promote. now rewrite lookup_insert_ne.
      * intros pv Hpv. apply Hbs. revert Hpv. unfold newest, promote.
        now rewrite lookup_insert_ne.
    + rewrite Hart. simpl. exact (staged_scaler_artifact n w _ _ Hsv Hs).
Qed.

End ServedProperties.

Lemma promoted_candidate_is_the_new_baseline_witness :
  snd (PredictModel.get_production_model 2
         (fst (PredictModel.predict_model_pipeline 2 better_candidate))) =
    Ok (Some 0.25%float) /\
  snd (PredictModel.get_production_scaler 2
         (fst (PredictModel.predict_model_pipeline 2 better_candidate))) =
    Ok (Some 1%nat).
Proof.
  destruct (promoted_candidate_is_the_new_baseline (R := demo) 2 better_candidate
              (second_candidate 0.25)) as [Hm Hs].
  - constructor; vm_compute; reflexivity.
  - right. exists first_baseline. split; [constructor|]; vm_compute; reflexivity.
  - intros pv Hpv.
    assert (H : newest (model_name 2) Registry.Production (registry better_candidate) =
                Some (Registry.mkModelVersion 2 1 "runs:/1/models/station_2"
                        Registry.Production)) by (vm_compute; reflexivity).
    rewrite H in Hpv. injection Hpv as <-. simpl. lia.
  - intros pv Hpv.
    assert (H : newest (scaler_name 2) Registry.Production (registry better_candidate) =
                Some (Registry.mkModelVersion 2 1 "runs:/1/scalers/station_2"
                        Registry.Production)) by (vm_compute; reflexivity).
    rewrite H in Hpv. injection Hpv as <-. simpl. lia.
  - split; [now rewrite Hm|now rewrite Hs].
Defined.
